(** * xmp_timedatestamp: prepending the XMP DateCreated stamp to a file name

    A shallow embedding of [src/xmp_timedatestamp.py] and the proofs of the
    properties its specification states.

    Conventions of the embedding.
    - A Python [str] is a list of Unicode code points ([list N]); [u] turns a
      literal into one.
    - [pathlib.Path] is the POSIX flavour: a root (one of the empty string,
      "/" and "//") and the list of components after it.
    - The file system is a finite map from paths to the bytes of regular
      files, with a set of directories in which entries may not be created or
      removed; there are no links and the working directory is fixed.
    - Standard output is the list of lines printed so far.
    - Text decoding and the XML parser ([xml.etree.ElementTree.fromstring])
      are parameters of the development; the element tree they produce and
      the search over it are concrete.
    - The function is called with strings: [file_path] is a [str] and
      [metadata_dir] a [str] or [None]. [Path.stem] follows the rule
      [0 < i < len(name) - 1] on the position of the last dot. *)

From Stdlib Require Import String Ascii NArith List Lia.
From stdpp Require Import base option list gmap.

Local Open Scope N_scope.

(** ** Text *)

Abbreviation str := (list N).

Definition ord (a : ascii) : N := N_of_ascii a.

Fixpoint u (s : string) : str :=
  match s with
  | EmptyString => []
  | String a s' => ord a :: u s'
  end.

(** Truth value of a string: the empty string is falsy. *)
Definition truthy (s : str) : bool :=
  match s with [] => false | _ :: _ => true end.

Module Re.

Definition in_range (lo hi : ascii) (c : N) : bool :=
  (ord lo <=? c) && (c <=? ord hi).

(** The set the class [[^A-Za-z0-9_-]] negates. *)
Definition allowed (c : N) : bool :=
  in_range "A" "Z" c || in_range "a" "z" c || in_range "0" "9" c
  || (c =? ord "_") || (c =? ord "-").

(** [re.sub(r'[^A-Za-z0-9_-]', repl, s)]: scan left to right, every
    character matched by the negated class is replaced by [repl], the
    others are copied. *)
Fixpoint sub_not_allowed (repl s : str) : str :=
  match s with
  | [] => []
  | c :: rest =>
      (if allowed c then [c] else repl) ++ sub_not_allowed repl rest
  end.

End Re.

(** Line 46: [re.sub(r'[^A-Za-z0-9_-]', '_', date_created.text)]. *)
Definition sanitize (text : str) : str := Re.sub_not_allowed (u "_") text.

(** What one character becomes. *)
Definition sanitize_char (c : N) : N := if Re.allowed c then c else ord "_".

(** ** Paths: [pathlib.PurePosixPath] *)

Definition SEP : N := ord "/".
Definition DOT : N := ord ".".

(** [s.split('/')] *)
Fixpoint split_sep (s : str) : list str :=
  match s with
  | [] => [[]]
  | c :: rest =>
      if c =? SEP then [] :: split_sep rest
      else match split_sep rest with
           | [] => [[c]]
           | w :: ws => (c :: w) :: ws
           end
  end.

(** [s.lstrip('/')] *)
Fixpoint lstrip_sep (s : str) : str :=
  match s with
  | [] => []
  | c :: rest => if c =? SEP then lstrip_sep rest else s
  end.

Record Path := mkPath { root : str; tail : list str }.

Global Instance Path_eq_dec : EqDecision Path.
Proof. solve_decision. Defined.

Global Instance Path_countable : Countable Path.
Proof.
  refine (inj_countable' (fun p => (root p, tail p))
                         (fun rt => mkPath rt.1 rt.2) _).
  by intros [r t].
Defined.

Module PurePath.

(** [_PosixFlavour.splitroot] *)
Definition splitroot (part : str) : str * str :=
  match part with
  | c :: _ =>
      if c =? SEP then
        let stripped := lstrip_sep part in
        if (length part - length stripped =? 2)%nat
        then (u "//", stripped)
        else (u "/", stripped)
      else ([], part)
  | [] => ([], part)
  end.

Definition is_component (x : str) : bool :=
  truthy x && negb (bool_decide (x = [DOT])).

(** The components [parse_parts] keeps of the part after the root. *)
Definition components (rel : str) : list str :=
  filter (fun x => is_component x = true) (split_sep rel).

(** [Path(s)] for a string argument. *)
Definition of_str (s : str) : Path :=
  let '(r, rel) := splitroot s in
  mkPath r (components rel).

(** ['/'.join(parts)] *)
Fixpoint join_sep (parts : list str) : str :=
  match parts with
  | [] => []
  | [x] => x
  | x :: rest => x ++ SEP :: join_sep rest
  end.

(** [str(path)] *)
Definition to_str (p : Path) : str :=
  match root p ++ join_sep (tail p) with
  | [] => [DOT]
  | s => s
  end.

(** [path.name] *)
Definition name (p : Path) : str := List.last (tail p) [].

(** [path.parent] *)
Definition parent (p : Path) : Path :=
  match tail p with
  | [] => p
  | _ => mkPath (root p) (removelast (tail p))
  end.

(** [name.rfind('.')], [None] for Python's -1. *)
Fixpoint rfind_dot (s : str) : option nat :=
  match s with
  | [] => None
  | c :: rest =>
      match rfind_dot rest with
      | Some i => Some (S i)
      | None => if c =? DOT then Some 0%nat else None
      end
  end.

(** [path.stem], as a function of [path.name]: the name up to its last
    dot when [0 < i < len(name) - 1] for the position [i] of that dot. *)
Definition stem_of_name (nm : str) : str :=
  match rfind_dot nm with
  | Some i =>
      if (0 <? i)%nat && (i <? length nm - 1)%nat then take i nm else nm
  | None => nm
  end.

Definition stem (p : Path) : str := stem_of_name (name p).

(** [path / key] for a string [key]: [_make_child] parses the key and
    [join_parsed_parts] keeps the left path unless the key is rooted. *)
Definition joinpath (p : Path) (key : str) : Path :=
  let k := of_str key in
  if truthy (root k) then k
  else mkPath (root p) (tail p ++ tail k).

End PurePath.

(** ** Exceptions *)

Inductive exn_class :=
| FileNotFoundError
| PermissionError
| UnicodeDecodeError
| ParseError
| ValueError
| RuntimeError.

(** An exception: its class, [str(e)], and the exception that was being
    handled when it was raised ([__context__]). *)
#[warnings="-register-all"]
Inductive exn := Exn (cls : exn_class) (msg : str) (context : option exn).

Definition exn_cls (e : exn) : exn_class := let 'Exn c _ _ := e in c.
Definition exn_msg (e : exn) : str := let 'Exn _ m _ := e in m.
Definition exn_context (e : exn) : option exn := let 'Exn _ _ c := e in c.

Inductive result (A : Type) :=
| Ok (a : A)
| Raise (e : exn).
Arguments Ok {A} a.
Arguments Raise {A} e.

(** What a library routine outside this repository hands back: a value, or
    the message of the error it raises. *)
Inductive outcome (A : Type) :=
| Value (a : A)
| Failure (msg : str).
Arguments Value {A} a.
Arguments Failure {A} msg.

(** ** The world: files and standard output *)

Record World := mkWorld {
  files : gmap Path (list Byte.byte);
  readonly : gset Path;
  stdout : list str
}.

Definition set_files (f : gmap Path (list Byte.byte)) (w : World) : World :=
  mkWorld f (readonly w) (stdout w).

Definition add_line (line : str) (w : World) : World :=
  mkWorld (files w) (readonly w) (stdout w ++ [line]).

(** [p.exists()] as a predicate on the world. *)
Definition path_exists (w : World) (p : Path) : Prop := is_Some (files w !! p).

(** ** A state and exception monad *)

Definition M (A : Type) : Type := World -> result A * World.

Definition ret {A} (a : A) : M A := fun w => (Ok a, w).

Definition raise {A} (e : exn) : M A := fun w => (Raise e, w).

Definition bind {A B} (m : M A) (k : A -> M B) : M B :=
  fun w =>
    match m w with
    | (Ok a, w') => k a w'
    | (Raise e, w') => (Raise e, w')
    end.

(** [try: m except Exception as e: h e] *)
Definition try_except {A} (m : M A) (h : exn -> M A) : M A :=
  fun w =>
    match m w with
    | (Ok a, w') => (Ok a, w')
    | (Raise e, w') => h e w'
    end.

Notation "x <- m ;; k" := (bind m (fun x => k))
  (at level 100, m at next level, right associativity).
Notation "m ;;; k" := (bind m (fun _ => k))
  (at level 100, right associativity).

(** ** XML element trees *)

#[warnings="-register-all"]
Inductive Element :=
  mkElement (tag : str) (text : option str) (children : list Element).

Definition Element_tag (e : Element) : str := let 'mkElement t _ _ := e in t.
Definition Element_text (e : Element) : option str :=
  let 'mkElement _ t _ := e in t.
Definition Element_children (e : Element) : list Element :=
  let 'mkElement _ _ c := e in c.

Module ET.

(** [elem.iter()]: the element, then its subtree in document order. *)
Fixpoint iter (e : Element) : list Element :=
  match e with
  | mkElement _ _ cs => e :: flat_map iter cs
  end.

(** The step [//] of a path: everything [iter] yields but the element
    itself. *)
Definition descendants (e : Element) : list Element :=
  flat_map iter (Element_children e).

(** [elem.find('.//' + tag)] with the tag already in [{uri}local] form. *)
Definition find_descendant (qtag : str) (e : Element) : option Element :=
  head (filter (fun x => Element_tag x = qtag) (descendants e)).

End ET.

(** Line 39: the namespace bound to the prefix [photoshop]. *)
Definition PHOTOSHOP_NS : str := u "http://ns.adobe.com/photoshop/1.0/".

(** ['photoshop:DateCreated'] resolved against the namespace map. *)
Definition DATE_CREATED : str := u "{" ++ PHOTOSHOP_NS ++ u "}DateCreated".

Definition quote (s : str) : str := u "'" ++ s ++ u "'".

(** ** File system operations *)

(** [p.exists()] *)
Definition exists_ (p : Path) : M bool :=
  fun w => (Ok (match files w !! p with Some _ => true | None => false end),
            w).

(** [os.rename(src, dst)]: fails when the source is absent or one of the two
    directories does not allow the change; otherwise the entry moves,
    replacing a file already at the destination. *)
Definition rename (src dst : Path) : M unit :=
  fun w =>
    match files w !! src with
    | None =>
        (Raise (Exn FileNotFoundError
                  (u "[Errno 2] No such file or directory: "
                   ++ quote (PurePath.to_str src) ++ u " -> "
                   ++ quote (PurePath.to_str dst)) None), w)
    | Some data =>
        if bool_decide (PurePath.parent src ∈ readonly w
                        ∨ PurePath.parent dst ∈ readonly w)
        then
          (Raise (Exn PermissionError
                    (u "[Errno 13] Permission denied: "
                     ++ quote (PurePath.to_str src) ++ u " -> "
                     ++ quote (PurePath.to_str dst)) None), w)
        else (Ok (), set_files (<[dst := data]> (delete src (files w))) w)
    end.

Definition print (line : str) : M unit :=
  fun w => (Ok (), add_line line w).

(** ** The program *)

Section Program.

(** Decoding of a file's bytes as UTF-8 text, and
    [xml.etree.ElementTree.fromstring]. *)
Variable decode : list Byte.byte -> outcome str.
Variable fromstring : str -> outcome Element.

(** Lines 34-35: [with p.open('r', encoding='utf-8') as file:
    content = file.read()]. *)
Definition read_text (p : Path) : M str :=
  fun w =>
    match files w !! p with
    | None =>
        (Raise (Exn FileNotFoundError
                  (u "[Errno 2] No such file or directory: "
                   ++ quote (PurePath.to_str p)) None), w)
    | Some data =>
        match decode data with
        | Value s => (Ok s, w)
        | Failure msg => (Raise (Exn UnicodeDecodeError msg None), w)
        end
    end.

(** Line 38. *)
Definition ET_fromstring (content : str) : M Element :=
  match fromstring content with
  | Value e => ret e
  | Failure msg => raise (Exn ParseError msg None)
  end.

(** Line 21: [Path(metadata_dir) if metadata_dir else None]. *)
Definition metadata_dir_path (metadata_dir : option str) : option Path :=
  match metadata_dir with
  | Some d => if truthy d then Some (PurePath.of_str d) else None
  | None => None
  end.

(** Lines 24-28. A [Path] object is always truthy, so the test of line 24
    is a test against [None]. *)
Definition xmp_file_path (file_path : Path) (metadata_dir : option Path)
  : Path :=
  match metadata_dir with
  | Some dir =>
      let filename_without_ext := PurePath.stem file_path in
      PurePath.joinpath dir (filename_without_ext ++ u ".xmp")
  | None => file_path
  end.

(** Line 40. *)
Definition find_date_created (root : Element) : option Element :=
  ET.find_descendant DATE_CREATED root.

(** Line 42: the text of the element when the test
    [date_created is None or not date_created.text] is false. *)
Definition date_text (date_created : option Element) : option str :=
  match date_created with
  | None => None
  | Some el =>
      match Element_text el with
      | None => None
      | Some text => if truthy text then Some text else None
      end
  end.

(** Line 49. *)
Definition new_filename (file_path : Path) (text : str) : str :=
  sanitize text ++ u "_" ++ PurePath.name file_path.

(** Line 50. *)
Definition new_file_path (file_path : Path) (text : str) : Path :=
  PurePath.joinpath (PurePath.parent file_path) (new_filename file_path text).

Definition not_found_error (xmp : Path) : exn :=
  Exn FileNotFoundError
    (u "XMP metadata file not found: " ++ PurePath.to_str xmp) None.

Definition missing_field_error : exn :=
  Exn ValueError (u "DateCreated attribute not found in the XMP metadata.")
    None.

Definition whatif_notice (file_path new_path : Path) : str :=
  u "[WHATIF] Would rename " ++ quote (PurePath.to_str file_path)
  ++ u " to " ++ quote (PurePath.to_str new_path).

(** Lines 21-58, the body of the [try]. *)
Definition body (file_path : Path) (metadata_dir : option str)
    (whatif : bool) : M Path :=
  let metadata_dir := metadata_dir_path metadata_dir in
  let xmp := xmp_file_path file_path metadata_dir in
  found <- exists_ xmp ;;
  (if negb found then raise (not_found_error xmp) else ret ()) ;;;
  content <- read_text xmp ;;
  root <- ET_fromstring content ;;
  let date_created := find_date_created root in
  match date_text date_created with
  | None => raise missing_field_error
  | Some text =>
      let new_path := new_file_path file_path text in
      (if whatif then print (whatif_notice file_path new_path)
       else rename file_path new_path) ;;;
      ret new_path
  end.

(** Line 61: the handler. [file_path] is by then the [Path] of line 20. *)
Definition wrap (file_path : Path) (e : exn) : exn :=
  Exn RuntimeError
    (u "Error processing file " ++ quote (PurePath.to_str file_path)
     ++ u ": " ++ exn_msg e)
    (Some e).

(** Lines 5-61. Line 20, [Path(file_path)], cannot raise on a string, so
    the handler always sees the converted path. *)
Definition prepend_date_to_filename (file_path : str)
    (metadata_dir : option str) (whatif : bool) : M Path :=
  let file_path := PurePath.of_str file_path in
  try_except (body file_path metadata_dir whatif)
             (fun e => raise (wrap file_path e)).

(** Lines 69-72: the statements run when the module is loaded. An
    exception escaping line 71 ends the run before line 72. *)
Definition module_file_path : str :=
  u "/Users/davidmidlo/Library/Mobile Documents/iCloud~md~obsidian/Documents/iOS-Vault/Desk/AvarTec Records/Clients/Dorglass/Other/25-01-03/IMG_2293.png".

Definition module_metadata_dir : str :=
  u "/Users/davidmidlo/Library/Mobile Documents/iCloud~md~obsidian/Documents/iOS-Vault/Desk/Unsorted Screenshots and Video/Raw and Metadata Files".

Definition confirmation (new_path : Path) : str :=
  u "File renamed to: " ++ PurePath.to_str new_path.

Definition module_main : M unit :=
  new_path <- prepend_date_to_filename module_file_path
                (Some module_metadata_dir) false ;;
  print (confirmation new_path).

(** What lines 31-43 leave in [date_created.text], as a function of the
world: the text, or the exception one of these lines raises. Used to state
the properties; [prepend_spec] relates it to the program. *)
Definition read_date (w : World) (xmp : Path) : result str :=
  match files w !! xmp with
  | None => Raise (not_found_error xmp)
  | Some data =>
      match decode data with
      | Failure msg => Raise (Exn UnicodeDecodeError msg None)
      | Value content =>
          match fromstring content with
          | Failure msg => Raise (Exn ParseError msg None)
          | Value root =>
              match date_text (find_date_created root) with
              | None => Raise missing_field_error
              | Some text => Ok text
              end
          end
      end
  end.

(** The metadata file an invocation consults. *)
Definition metadata_location (file_path : str) (metadata_dir : option str)
  : Path :=
  xmp_file_path (PurePath.of_str file_path) (metadata_dir_path metadata_dir).

End Program.

(** ** A sample environment

    An instance of the two parameters, used to run the program on concrete
    worlds: a decoder for the ASCII subset of UTF-8, and a parser given by
    the table of the documents it knows (any other text is a syntax
    error). *)

Definition ascii_decode (data : list Byte.byte) : outcome str :=
  let cps := map Byte.to_N data in
  if forallb (fun c => c <? 128) cps then Value cps
  else Failure (u "'utf-8' codec can't decode bytes: invalid start byte").

Definition RDF_NS : string := "http://www.w3.org/1999/02/22-rdf-syntax-ns#".

Definition xmp_open : string :=
  "<x:xmpmeta xmlns:x='adobe:ns:meta/'><rdf:RDF xmlns:rdf='" ++ RDF_NS
  ++ "'><rdf:Description xmlns:photoshop='http://ns.adobe.com/photoshop/1.0/'>".

Definition xmp_close : string := "</rdf:Description></rdf:RDF></x:xmpmeta>".

(** The text of a sidecar with the given DateCreated, and of one without the
    element. *)
Definition xmp_source (date : string) : string :=
  xmp_open ++ "<photoshop:DateCreated>" ++ date ++ "</photoshop:DateCreated>"
  ++ xmp_close.

Definition xmp_source_no_date : string := xmp_open ++ xmp_close.

Definition xmp_tree (fields : list Element) : Element :=
  mkElement (u "{adobe:ns:meta/}xmpmeta") None
    [mkElement (u ("{" ++ RDF_NS ++ "}RDF")) None
       [mkElement (u ("{" ++ RDF_NS ++ "}Description")) None fields]].

Definition date_field (text : option str) : Element :=
  mkElement DATE_CREATED text [].

Definition sample_documents : list (str * Element) :=
  [ (u (xmp_source "2024-01-05"),
     xmp_tree [date_field (Some (u "2024-01-05"))]);
    (u (xmp_source "2024:01:05 10:30"),
     xmp_tree [date_field (Some (u "2024:01:05 10:30"))]);
    (u (xmp_source EmptyString), xmp_tree [date_field None]);
    (u xmp_source_no_date, xmp_tree []) ].

Fixpoint assoc (k : str) (table : list (str * Element)) : option Element :=
  match table with
  | [] => None
  | (k', v) :: rest => if bool_decide (k = k') then Some v else assoc k rest
  end.

Definition sample_fromstring (content : str) : outcome Element :=
  match assoc content sample_documents with
  | Some e => Value e
  | None => Failure (u "syntax error: line 1, column 0")
  end.

Definition P (s : string) : Path := PurePath.of_str (u s).

Definition file_of (s : string) : list Byte.byte := list_byte_of_string s.

(** A picture in /photos with its sidecar in /meta. *)
Definition sample_world (date : string) : World :=
  mkWorld (list_to_map [ (P "/photos/IMG_1.png", file_of "PNG");
                         (P "/meta/IMG_1.xmp", file_of (xmp_source date)) ])
          ∅ [].

(** The same without the sidecar. *)
Definition world_without_sidecar : World :=
  mkWorld (list_to_map [ (P "/photos/IMG_1.png", file_of "PNG") ]) ∅ [].

(** A sidecar that lacks the element. *)
Definition world_no_date : World :=
  mkWorld (list_to_map [ (P "/photos/IMG_1.png", file_of "PNG");
                         (P "/meta/IMG_1.xmp", file_of xmp_source_no_date) ])
          ∅ [].

(** A sidecar that is not XML. *)
Definition world_bad_xml : World :=
  mkWorld (list_to_map [ (P "/photos/IMG_1.png", file_of "PNG");
                         (P "/meta/IMG_1.xmp", file_of "not xml") ])
          ∅ [].

(** The picture's directory does not allow renaming. *)
Definition world_readonly : World :=
  mkWorld (files (sample_world "2024-01-05")) {[ P "/photos" ]} [].

Definition run_sample (file_path : string) (metadata_dir : option string)
    (whatif : bool) (w : World) : result Path * World :=
  prepend_date_to_filename ascii_decode sample_fromstring
    (u file_path) (u <$> metadata_dir) whatif w.

(** ** The claims as the specification words them

    Two sentences of the specification are compared with the program below;
    they are written out here, following the specification's words. *)

(** "Every successful invocation emits exactly one diagnostic line: in
    dry-run mode the WHATIF notice, otherwise the rename confirmation." *)
Definition one_line_per_success
    (decode : list Byte.byte -> outcome str)
    (fromstring : str -> outcome Element) : Prop :=
  forall file_path metadata_dir whatif w new_path w',
    prepend_date_to_filename decode fromstring file_path metadata_dir whatif w
    = (Ok new_path, w') ->
    stdout w' =
      stdout w ++ [ if whatif
                    then whatif_notice (PurePath.of_str file_path) new_path
                    else confirmation new_path ].

(** The components of a parsed path hold no separator, are not empty and are
    not the single dot. *)
Definition wf_path (p : Path) : Prop :=
  Forall (fun x => (SEP ∉ x) /\ x <> [] /\ x <> [DOT]) (tail p).

(** * Properties *)

(** ** Sanitizing *)

Lemma sanitize_map (s : str) : sanitize s = map sanitize_char s.
Proof.
  induction s as [|c s IH]; [done|].
  change (sanitize (c :: s))
    with ((if Re.allowed c then [c] else u "_") ++ sanitize s).
  rewrite IH. cbn [map]. generalize (map sanitize_char s). intros l.
  unfold sanitize_char. by destruct (Re.allowed c).
Qed.

Lemma allowed_spec (c : N) :
  Re.allowed c = true <->
  (65 <= c <= 90 \/ 97 <= c <= 122 \/ 48 <= c <= 57 \/ c = 95 \/ c = 45).
Proof.
  unfold Re.allowed, Re.in_range, ord. simpl N_of_ascii.
  rewrite !orb_true_iff, !andb_true_iff, !N.leb_le, !N.eqb_eq. lia.
Qed.

Lemma sanitize_char_allowed (c : N) : Re.allowed (sanitize_char c) = true.
Proof.
  unfold sanitize_char. destruct (Re.allowed c) eqn:E; [done|].
  by vm_compute.
Qed.

Lemma sanitize_char_fixed (c : N) :
  Re.allowed c = true -> sanitize_char c = c.
Proof. unfold sanitize_char. by intros ->. Qed.

Lemma sanitize_length (s : str) : length (sanitize s) = length s.
Proof. rewrite sanitize_map. apply length_map. Qed.

Lemma sanitize_lookup (s : str) (i : nat) :
  sanitize s !! i = sanitize_char <$> s !! i.
Proof. rewrite sanitize_map. apply list_lookup_fmap. Qed.

Lemma sanitize_all_allowed (s : str) :
  Forall (fun c => Re.allowed c = true) (sanitize s).
Proof.
  rewrite sanitize_map. apply Forall_forall. intros c Hc.
  apply list_elem_of_In, in_map_iff in Hc as (c0 & <- & _).
  apply sanitize_char_allowed.
Qed.

(** C1. Sanitizing replaces each character outside A-Z, a-z, 0-9, underscore
    and hyphen by one underscore and keeps every other character: the result
    has the length of the input, its i-th character is the image of the
    input's i-th character, and "2024:01:05 10:30" becomes
    "2024_01_05_10_30". *)
Theorem C1_sanitize_charwise :
  (forall c : N,
      Re.allowed c = true <->
      (65 <= c <= 90 \/ 97 <= c <= 122 \/ 48 <= c <= 57 \/ c = 95 \/ c = 45))
  /\ (forall s : str,
        length (sanitize s) = length s
        /\ forall (i : nat) (c : N),
             s !! i = Some c ->
             sanitize s !! i = Some (if Re.allowed c then c else ord "_"))
  /\ sanitize (u "2024:01:05 10:30") = u "2024_01_05_10_30".
Proof.
  split; [exact allowed_spec|]. split; [|reflexivity].
  intros s. split; [apply sanitize_length|].
  intros i c Hi. by rewrite sanitize_lookup, Hi.
Qed.

(** C10. Sanitizing is idempotent: the output only holds characters of the
    allowed set, so sanitizing it again changes nothing. *)
Theorem C10_sanitize_idempotent (s : str) :
  Forall (fun c => Re.allowed c = true) (sanitize s)
  /\ sanitize (sanitize s) = sanitize s.
Proof.
  split; [apply sanitize_all_allowed|].
  rewrite !sanitize_map, map_map.
  apply map_ext. intros c.
  apply sanitize_char_fixed, sanitize_char_allowed.
Qed.

(** ** Paths *)

Example of_str_abs :
  PurePath.of_str (u "/photos//raw/./IMG_1.png")
  = mkPath (u "/") [u "photos"; u "raw"; u "IMG_1.png"].
Proof. reflexivity. Qed.

Example of_str_two_slashes :
  PurePath.of_str (u "//srv/a") = mkPath (u "//") [u "srv"; u "a"].
Proof. reflexivity. Qed.

Example to_str_rel :
  PurePath.to_str (PurePath.of_str (u "a/b/")) = u "a/b"
  /\ PurePath.to_str (PurePath.of_str []) = u ".".
Proof. split; reflexivity. Qed.

Example stem_examples :
  PurePath.stem (PurePath.of_str (u "/d/IMG_1.png")) = u "IMG_1"
  /\ PurePath.stem (PurePath.of_str (u "/d/a.tar.gz")) = u "a.tar"
  /\ PurePath.stem (PurePath.of_str (u "/d/.bashrc")) = u ".bashrc"
  /\ PurePath.stem (PurePath.of_str (u "/d/notes.")) = u "notes.".
Proof. repeat split; reflexivity. Qed.

Lemma sep_not_allowed : Re.allowed SEP = false.
Proof. reflexivity. Qed.

Lemma sanitize_no_sep (s : str) : SEP ∉ sanitize s.
Proof.
  intros Hin.
  pose proof (sanitize_all_allowed s) as Hall.
  rewrite Forall_forall in Hall. apply Hall in Hin.
  by rewrite sep_not_allowed in Hin.
Qed.

Lemma split_sep_no_sep (s : str) : SEP ∉ s -> split_sep s = [s].
Proof.
  induction s as [|c s IH]; intros Hs; [done|].
  apply not_elem_of_cons in Hs as [Hc Hs]. simpl.
  destruct (N.eqb_spec c SEP) as [->|_]; [done|].
  by rewrite (IH Hs).
Qed.

Lemma split_sep_elem (s x : str) : x ∈ split_sep s -> SEP ∉ x.
Proof.
  revert x. induction s as [|c s IH]; intros x; simpl.
  - intros Hx. apply list_elem_of_singleton in Hx as ->. apply not_elem_of_nil.
  - destruct (N.eqb_spec c SEP) as [->|Hc].
    + intros [->|Hx]%elem_of_cons; [apply not_elem_of_nil | by apply IH].
    + destruct (split_sep s) as [|w ws].
      * intros Hx. apply list_elem_of_singleton in Hx as ->.
        apply not_elem_of_cons. split; [done | apply not_elem_of_nil].
      * intros [->|Hx]%elem_of_cons.
        -- apply not_elem_of_cons. split; [done|]. apply IH, elem_of_cons. by left.
        -- apply IH, elem_of_cons. by right.
Qed.

Lemma is_component_spec (x : str) :
  PurePath.is_component x = true <-> x <> [] /\ x <> [DOT].
Proof.
  unfold PurePath.is_component.
  rewrite andb_true_iff, negb_true_iff, bool_decide_eq_false.
  destruct x; simpl; intuition congruence.
Qed.

Lemma components_elem (rel x : str) :
  x ∈ PurePath.components rel -> (SEP ∉ x) /\ x <> [] /\ x <> [DOT].
Proof.
  unfold PurePath.components.
  intros [Hc Hx]%list_elem_of_filter. split.
  - by eapply split_sep_elem.
  - by apply is_component_spec.
Qed.

Lemma components_single (s : str) :
  SEP ∉ s -> s <> [] -> s <> [DOT] -> PurePath.components s = [s].
Proof.
  intros Hs Hne Hdot. unfold PurePath.components.
  rewrite (split_sep_no_sep _ Hs).
  rewrite filter_cons_True; [done|]. by apply is_component_spec.
Qed.

Lemma of_str_wf (s : str) : wf_path (PurePath.of_str s).
Proof.
  unfold wf_path, PurePath.of_str.
  destruct (PurePath.splitroot s) as [r rel]. simpl.
  apply Forall_forall. intros x. apply components_elem.
Qed.

Lemma name_cases (p : Path) :
  (tail p = [] /\ PurePath.name p = [])
  \/ (tail p = removelast (tail p) ++ [PurePath.name p]).
Proof.
  unfold PurePath.name. destruct (tail p) as [|x t] eqn:E; [by left|].
  right. apply app_removelast_last. done.
Qed.

Lemma name_no_sep (p : Path) : wf_path p -> SEP ∉ PurePath.name p.
Proof.
  intros Hwf. destruct (name_cases p) as [[_ ->]|Ht]; [apply not_elem_of_nil|].
  unfold wf_path in Hwf. rewrite Ht, Forall_app, Forall_singleton in Hwf.
  tauto.
Qed.

Lemma stem_of_name_no_sep (nm : str) :
  SEP ∉ nm -> SEP ∉ PurePath.stem_of_name nm.
Proof.
  intros Hnm. unfold PurePath.stem_of_name.
  destruct (PurePath.rfind_dot nm) as [i|]; [|done].
  destruct (_ && _); [|done].
  intros Hin. apply Hnm. by eapply subseteq_take.
Qed.

Lemma of_str_component (s : str) :
  SEP ∉ s -> s <> [] -> s <> [DOT] -> PurePath.of_str s = mkPath [] [s].
Proof.
  intros Hs Hne Hdot. unfold PurePath.of_str, PurePath.splitroot.
  destruct s as [|c s']; [done|].
  destruct (N.eqb_spec c SEP) as [->|_].
  - exfalso. apply Hs, elem_of_cons. by left.
  - by rewrite components_single.
Qed.

Lemma joinpath_component (p : Path) (s : str) :
  SEP ∉ s -> s <> [] -> s <> [DOT] ->
  PurePath.joinpath p s = mkPath (root p) (tail p ++ [s]).
Proof.
  intros Hs Hne Hdot. unfold PurePath.joinpath.
  by rewrite of_str_component.
Qed.

Lemma parent_root (p : Path) : root (PurePath.parent p) = root p.
Proof. unfold PurePath.parent. by destruct (tail p). Qed.

Lemma parent_tail (p : Path) :
  tail (PurePath.parent p) = removelast (tail p).
Proof. unfold PurePath.parent. by destruct (tail p) eqn:E; [rewrite E|]. Qed.

(** *** The new name differs from the old name and from the sidecar's *)

Lemma new_name_ne_name (x nm : str) : x ++ u "_" ++ nm <> nm.
Proof.
  intros Heq. apply (f_equal length) in Heq.
  rewrite !length_app in Heq. simpl in Heq. lia.
Qed.

Lemma rfind_dot_xmp (pre : str) :
  PurePath.rfind_dot (pre ++ u ".xmp") = Some (length pre).
Proof.
  induction pre as [|c pre IH]; [reflexivity|].
  simpl in *. by rewrite IH.
Qed.

Lemma stem_of_name_xmp (pre : str) :
  pre <> [] -> PurePath.stem_of_name (pre ++ u ".xmp") = pre.
Proof.
  intros Hpre. unfold PurePath.stem_of_name.
  rewrite rfind_dot_xmp, length_app.
  assert (0 < length pre)%nat as Hlen by (destruct pre; simpl; [done | lia]).
  replace (0 <? length pre)%nat with true
    by (symmetry; apply Nat.ltb_lt; lia).
  replace (length pre <? length pre + length (u ".xmp") - 1)%nat with true
    by (symmetry; apply Nat.ltb_lt; simpl; lia).
  simpl andb. cbv iota.
  by rewrite take_app_length.
Qed.

Lemma new_name_ne_sidecar_name (x nm : str) :
  x ++ u "_" ++ nm <> PurePath.stem_of_name nm ++ u ".xmp".
Proof.
  intros Heq.
  rewrite <- (rev_involutive nm) in Heq.
  remember (rev nm) as r eqn:Hr. clear Hr nm.
  pose proof (f_equal (@rev N) Heq) as Hrev.
  rewrite !rev_app_distr, rev_involutive in Hrev.
  change (u "_") with [95] in Hrev.
  change (u ".xmp") with [46; 120; 109; 112] in Hrev.
  destruct r as [|a [|b [|c [|d r]]]];
    try (cbn [rev app] in Hrev; discriminate Hrev).
  cbn [rev app] in Hrev.
  injection Hrev as -> -> -> -> Hrev.
  destruct r as [|e r].
  - vm_compute in Hrev. discriminate Hrev.
  - clear Hrev.
    assert (rev (112 :: 109 :: 120 :: 46 :: e :: r)
            = rev (e :: r) ++ u ".xmp") as Hnm.
    { change (112 :: 109 :: 120 :: 46 :: e :: r)
        with (rev (u ".xmp") ++ e :: r).
      by rewrite rev_app_distr, rev_involutive. }
    rewrite Hnm in Heq.
    rewrite stem_of_name_xmp in Heq.
    + apply (f_equal length) in Heq.
      rewrite !length_app in Heq. simpl in Heq. lia.
    + simpl. by destruct (rev r).
Qed.

(** *** Printing a path and reading it back *)

Lemma split_sep_app_sep (x rest : str) :
  SEP ∉ x -> split_sep (x ++ SEP :: rest) = x :: split_sep rest.
Proof.
  induction x as [|c x IH]; intros Hx.
  - cbn [app split_sep]. by rewrite N.eqb_refl.
  - apply not_elem_of_cons in Hx as [Hc Hx]. cbn [app split_sep].
    destruct (N.eqb_spec c SEP) as [|_]; [done|]. by rewrite (IH Hx).
Qed.

Lemma split_sep_join (t : list str) :
  t <> [] -> Forall (fun x => SEP ∉ x) t ->
  split_sep (PurePath.join_sep t) = t.
Proof.
  induction t as [|x t IH]; [done|]. intros _ Hall.
  apply Forall_cons in Hall as [Hx Ht].
  destruct t as [|y t].
  - cbn [PurePath.join_sep]. by apply split_sep_no_sep.
  - change (PurePath.join_sep (x :: y :: t))
      with (x ++ SEP :: PurePath.join_sep (y :: t)).
    rewrite split_sep_app_sep by done. f_equal. by apply IH.
Qed.

Lemma filter_components (t : list str) :
  Forall (fun x => (SEP ∉ x) /\ x <> [] /\ x <> [DOT]) t ->
  filter (fun x => PurePath.is_component x = true) t = t.
Proof.
  induction 1 as [|x t (_ & Hne & Hdot) _ IH]; [done|].
  rewrite filter_cons_True by (by apply is_component_spec).
  by rewrite IH.
Qed.

Lemma components_join (t : list str) :
  Forall (fun x => (SEP ∉ x) /\ x <> [] /\ x <> [DOT]) t ->
  PurePath.components (PurePath.join_sep t) = t.
Proof.
  intros Hall. destruct (decide (t = [])) as [->|Hne]; [reflexivity|].
  unfold PurePath.components. rewrite split_sep_join.
  - by apply filter_components.
  - done.
  - eapply Forall_impl; [exact Hall|]. by intros x (? & _).
Qed.

(** The joined components are empty or start with something else than the
    separator. *)
Lemma join_sep_head (t : list str) :
  Forall (fun x => (SEP ∉ x) /\ x <> [] /\ x <> [DOT]) t ->
  match PurePath.join_sep t with
  | [] => t = []
  | c :: _ => c <> SEP
  end.
Proof.
  intros Hall. destruct t as [|x t]; [done|].
  apply Forall_cons in Hall as [(Hsep & Hne & _) _].
  destruct x as [|c x]; [done|].
  assert (c <> SEP) as Hc.
  { intros ->. apply Hsep, elem_of_cons. by left. }
  by destruct t.
Qed.

Lemma lstrip_sep_id (s : str) :
  match s with [] => True | c :: _ => c <> SEP end -> lstrip_sep s = s.
Proof.
  destruct s as [|c s]; [done|]. intros Hc. cbn [lstrip_sep].
  by destruct (N.eqb_spec c SEP).
Qed.

Lemma of_str_root (s : str) :
  root (PurePath.of_str s) = []
  \/ root (PurePath.of_str s) = u "/"
  \/ root (PurePath.of_str s) = u "//".
Proof.
  unfold PurePath.of_str, PurePath.splitroot.
  destruct s as [|c s]; [by left|].
  destruct (c =? SEP); [|by left].
  destruct (_ =? 2)%nat; cbn [root]; tauto.
Qed.

(** [Path(str(p)) == p]: the string a path prints as denotes that path. *)
Lemma of_str_to_str (p : Path) :
  wf_path p ->
  root p = [] \/ root p = u "/" \/ root p = u "//" ->
  PurePath.of_str (PurePath.to_str p) = p.
Proof.
  destruct p as [r t]. unfold wf_path. cbn [root tail]. intros Hwf Hroot.
  pose proof (join_sep_head t Hwf) as Hhead.
  pose proof (components_join t Hwf) as Hcomp.
  assert (lstrip_sep (PurePath.join_sep t) = PurePath.join_sep t) as Hstrip.
  { apply lstrip_sep_id. by destruct (PurePath.join_sep t). }
  unfold PurePath.to_str. cbn [root tail].
  destruct Hroot as [-> | [-> | ->]].
  - cbn [app]. destruct (PurePath.join_sep t) as [|c j] eqn:Hj.
    + by rewrite Hhead.
    + unfold PurePath.of_str, PurePath.splitroot.
      destruct (N.eqb_spec c SEP) as [|_]; [done|]. by rewrite Hcomp.
  - change (u "/" ++ PurePath.join_sep t) with (SEP :: PurePath.join_sep t).
    unfold PurePath.of_str, PurePath.splitroot. rewrite N.eqb_refl.
    cbn [lstrip_sep]. rewrite N.eqb_refl.
    rewrite Hstrip.
    replace (length (SEP :: PurePath.join_sep t)
             - length (PurePath.join_sep t))%nat with 1%nat
      by (cbn [length]; lia).
    cbn [Nat.eqb]. by rewrite Hcomp.
  - change (u "//" ++ PurePath.join_sep t)
      with (SEP :: SEP :: PurePath.join_sep t).
    unfold PurePath.of_str, PurePath.splitroot. rewrite N.eqb_refl.
    cbn [lstrip_sep]. rewrite !N.eqb_refl.
    rewrite Hstrip.
    replace (length (SEP :: SEP :: PurePath.join_sep t)
             - length (PurePath.join_sep t))%nat with 2%nat
      by (cbn [length]; lia).
    cbn [Nat.eqb]. by rewrite Hcomp.
Qed.

Lemma of_str_idempotent (s : str) :
  PurePath.of_str (PurePath.to_str (PurePath.of_str s)) = PurePath.of_str s.
Proof. apply of_str_to_str; [apply of_str_wf | apply of_str_root]. Qed.

(** ** The program *)

Section Run.

Context (decode : list Byte.byte -> outcome str).
Context (fromstring : str -> outcome Element).

Abbreviation run := (prepend_date_to_filename decode fromstring).
Abbreviation date_of := (read_date decode fromstring).

(** The program as a decision tree over [read_date]. *)
Lemma prepend_spec (fp : str) (md : option str) (whatif : bool) (w : World) :
  run fp md whatif w =
  match date_of w (metadata_location fp md) with
  | Raise e => (Raise (wrap (PurePath.of_str fp) e), w)
  | Ok text =>
      let np := new_file_path (PurePath.of_str fp) text in
      if whatif
      then (Ok np, add_line (whatif_notice (PurePath.of_str fp) np) w)
      else match rename (PurePath.of_str fp) np w with
           | (Ok _, w') => (Ok np, w')
           | (Raise e, w') => (Raise (wrap (PurePath.of_str fp) e), w')
           end
  end.
Proof.
  unfold prepend_date_to_filename, try_except, body, read_date,
    metadata_location.
  set (P := PurePath.of_str fp).
  set (xmp := xmp_file_path P (metadata_dir_path md)).
  unfold bind at 1. unfold exists_.
  destruct (files w !! xmp) as [data|] eqn:Hx.
  - simpl negb. cbv iota.
    unfold bind at 1. unfold ret at 1.
    unfold bind at 1. unfold read_text. rewrite Hx.
    destruct (decode data) as [content|msg]; [|done].
    unfold bind at 1. unfold ET_fromstring.
    destruct (fromstring content) as [rt|msg]; [|done].
    unfold ret at 1.
    destruct (date_text (find_date_created rt)) as [text|]; [|done].
    cbv zeta. unfold bind, ret, raise.
    destruct whatif; [done|].
    by destruct (rename P (new_file_path P text) w) as [[[]|e] w'].
  - done.
Qed.

(** What [rename] does to the world. *)
Lemma rename_ok (src dst : Path) (w w' : World) :
  rename src dst w = (Ok (), w') ->
  exists data,
    files w !! src = Some data
    /\ (PurePath.parent src ∉ readonly w)
    /\ (PurePath.parent dst ∉ readonly w)
    /\ w' = set_files (<[dst := data]> (delete src (files w))) w.
Proof.
  unfold rename. destruct (files w !! src) as [data|]; [|done].
  case_bool_decide as Hro; [done|].
  intros [= <-]. exists data.
  split; [done|]. split; [|split; [|done]]; intros H; apply Hro; tauto.
Qed.

Lemma rename_raise (src dst : Path) (w w' : World) (e : exn) :
  rename src dst w = (Raise e, w') ->
  w' = w /\ (exn_cls e = FileNotFoundError \/ exn_cls e = PermissionError)
  /\ exn_context e = None.
Proof.
  unfold rename. destruct (files w !! src) as [data|].
  - case_bool_decide; [|done]. intros [= <- <-]. simpl. tauto.
  - intros [= <- <-]. simpl. tauto.
Qed.

Lemma rename_missing (src dst : Path) (w : World) :
  files w !! src = None ->
  exists e, rename src dst w = (Raise e, w)
            /\ exn_cls e = FileNotFoundError.
Proof. intros H. unfold rename. rewrite H. eauto. Qed.

Lemma raise_wrap_inj (p : Path) (e1 e2 : exn) :
  (Raise (wrap p e1) : result Path) = Raise (wrap p e2) -> e1 = e2.
Proof.
  intros H.
  apply (f_equal (fun r : result Path =>
                    match r with
                    | Raise e => exn_context e
                    | Ok _ => None
                    end)) in H.
  cbn [exn_context wrap] in H. congruence.
Qed.

(** [read_date] only looks at one file. *)
Lemma read_date_agree (w1 w2 : World) (xmp : Path) :
  files w1 !! xmp = files w2 !! xmp -> date_of w1 xmp = date_of w2 xmp.
Proof. unfold read_date. by intros ->. Qed.

Lemma read_date_raise_cls (w : World) (xmp : Path) (e : exn) :
  date_of w xmp = Raise e ->
  exn_cls e <> RuntimeError /\ exn_context e = None.
Proof.
  unfold read_date, not_found_error, missing_field_error.
  destruct (files w !! xmp) as [data|]; [|by intros [= <-]].
  destruct (decode data) as [content|]; [|by intros [= <-]].
  destruct (fromstring content) as [rt|]; [|by intros [= <-]].
  destruct (date_text (find_date_created rt)); [done | by intros [= <-]].
Qed.

(** An invocation that raises hands the world back untouched. *)
Lemma run_raise_world (fp : str) (md : option str) (whatif : bool)
    (w w' : World) (e : exn) :
  run fp md whatif w = (Raise e, w') -> w' = w.
Proof.
  rewrite prepend_spec.
  destruct (date_of w (metadata_location fp md)) as [text|e0];
    [|by intros [= _ <-]].
  cbv zeta. destruct whatif; [done|].
  destruct (rename _ _ w) as [[[]|e1] w1] eqn:Hren; [done|].
  apply rename_raise in Hren as [-> _]. by intros [= _ <-].
Qed.

(** *** The shape of the two computed paths *)

Lemma new_filename_component (p : Path) (text : str) :
  wf_path p ->
  (SEP ∉ new_filename p text)
  /\ new_filename p text <> [] /\ new_filename p text <> [DOT].
Proof.
  intros Hwf. unfold new_filename.
  assert (ord "_" ∈ sanitize text ++ u "_" ++ PurePath.name p) as Hin.
  { apply elem_of_app. right. apply elem_of_cons. by left. }
  split; [|split].
  - intros [H|H]%elem_of_app; [by apply sanitize_no_sep in H|].
    apply elem_of_cons in H as [H|H]; [discriminate H|].
    by apply name_no_sep in H.
  - intros Heq. rewrite Heq in Hin. by apply elem_of_nil in Hin.
  - intros Heq. rewrite Heq in Hin.
    apply list_elem_of_singleton in Hin. discriminate Hin.
Qed.

Lemma new_file_path_shape (p : Path) (text : str) :
  wf_path p ->
  new_file_path p text
  = mkPath (root p) (removelast (tail p) ++ [new_filename p text]).
Proof.
  intros Hwf. unfold new_file_path.
  destruct (new_filename_component p text Hwf) as (H1 & H2 & H3).
  rewrite joinpath_component by done.
  by rewrite parent_root, parent_tail.
Qed.

Lemma sidecar_name_component (p : Path) :
  wf_path p ->
  (SEP ∉ PurePath.stem p ++ u ".xmp")
  /\ PurePath.stem p ++ u ".xmp" <> []
  /\ PurePath.stem p ++ u ".xmp" <> [DOT].
Proof.
  intros Hwf. split; [|split].
  - intros [H|H]%elem_of_app.
    + apply stem_of_name_no_sep in H; [done | by apply name_no_sep].
    + vm_compute in H. repeat (apply elem_of_cons in H as [H|H]; [discriminate H|]).
      by apply elem_of_nil in H.
  - intros H. apply (f_equal length) in H. rewrite length_app in H.
    simpl in H. lia.
  - intros H. apply (f_equal length) in H. rewrite length_app in H.
    simpl in H. lia.
Qed.

Lemma xmp_file_path_shape (p dir : Path) :
  wf_path p ->
  xmp_file_path p (Some dir)
  = mkPath (root dir) (tail dir ++ [PurePath.stem p ++ u ".xmp"]).
Proof.
  intros Hwf. unfold xmp_file_path.
  destruct (sidecar_name_component p Hwf) as (H1 & H2 & H3).
  by rewrite joinpath_component.
Qed.

Lemma new_file_path_name (p : Path) (text : str) :
  wf_path p -> PurePath.name (new_file_path p text) = new_filename p text.
Proof.
  intros Hwf. rewrite new_file_path_shape by done.
  unfold PurePath.name. simpl. apply last_last.
Qed.

Lemma new_file_path_parent (p : Path) (text : str) :
  wf_path p -> PurePath.parent (new_file_path p text) = PurePath.parent p.
Proof.
  intros Hwf. rewrite new_file_path_shape by done.
  unfold PurePath.parent at 1. simpl.
  destruct (removelast (tail p) ++ [new_filename p text]) eqn:E.
  { by destruct (removelast (tail p)). }
  rewrite <- E, removelast_last.
  unfold PurePath.parent. destruct p as [r [|x t]]; simpl; done.
Qed.

Lemma new_file_path_ne (p : Path) (text : str) :
  wf_path p -> new_file_path p text <> p.
Proof.
  intros Hwf Heq. rewrite new_file_path_shape in Heq by done.
  apply (f_equal tail) in Heq. simpl in Heq.
  destruct (name_cases p) as [[Ht _]|Ht].
  - rewrite Ht in Heq. discriminate Heq.
  - rewrite Ht in Heq at 2. apply app_inj_tail in Heq as [_ Heq].
    by apply new_name_ne_name in Heq.
Qed.

Lemma new_file_path_ne_xmp (p : Path) (text : str) (md : option Path) :
  wf_path p -> new_file_path p text <> xmp_file_path p md.
Proof.
  intros Hwf. destruct md as [dir|]; [|by apply new_file_path_ne].
  rewrite new_file_path_shape, xmp_file_path_shape by done.
  intros [= _ Heq]. apply app_inj_tail in Heq as [_ Heq].
  by apply new_name_ne_sidecar_name in Heq.
Qed.

(** *** The computed new path *)

(** C2. A successful invocation returns the parent directory of the target
    joined with the sanitized DateCreated text, an underscore and the
    target's file name (extension included): the returned path has the
    target's parent and that string as its name. *)
Theorem C2_new_path (fp : str) (md : option str) (whatif : bool)
    (w w' : World) (np : Path) :
  run fp md whatif w = (Ok np, w') ->
  exists text,
    date_of w (metadata_location fp md) = Ok text
    /\ np = PurePath.joinpath (PurePath.parent (PurePath.of_str fp))
              (sanitize text ++ u "_" ++ PurePath.name (PurePath.of_str fp))
    /\ PurePath.parent np = PurePath.parent (PurePath.of_str fp)
    /\ PurePath.name np
       = sanitize text ++ u "_" ++ PurePath.name (PurePath.of_str fp).
Proof.
  intros Hrun. rewrite prepend_spec in Hrun.
  destruct (date_of w (metadata_location fp md)) as [text|e]; [|done].
  assert (np = new_file_path (PurePath.of_str fp) text) as ->.
  { cbv zeta in Hrun. destruct whatif; [by injection Hrun|].
    destruct (rename _ _ w) as [[[]|e] w1]; [by injection Hrun | done]. }
  exists text. pose proof (of_str_wf fp) as Hwf.
  split; [done|]. split; [done|]. split.
  - by apply new_file_path_parent.
  - by apply new_file_path_name.
Qed.

(** *** Dry run *)

(** C3. With the dry-run flag set the file system is left as it was, whether
    the call returns or raises: the same paths exist afterwards, so the
    target is still at its path and nothing appears at the computed new
    path; and as soon as the metadata yields a date the call returns the
    computed new path. *)
Theorem C3_dry_run_frame (fp : str) (md : option str) (w : World) :
  let file_path := PurePath.of_str fp in
  let r := run fp md true w in
  files r.2 = files w
  /\ readonly r.2 = readonly w
  /\ (forall q, path_exists r.2 q <-> path_exists w q)
  /\ (path_exists w file_path -> path_exists r.2 file_path)
  /\ (forall np, r.1 = Ok np ->
        (exists text, date_of w (metadata_location fp md) = Ok text
                      /\ np = new_file_path file_path text)
        /\ (~ path_exists w np -> ~ path_exists r.2 np))
  /\ (forall text, date_of w (metadata_location fp md) = Ok text ->
        r.1 = Ok (new_file_path file_path text)).
Proof.
  cbv zeta. rewrite prepend_spec.
  destruct (date_of w (metadata_location fp md)) as [text|e]; cbv zeta; simpl.
  - split; [done|]. split; [done|]. split; [done|]. split; [done|]. split.
    + intros np [= <-]. split; [by exists text | done].
    + by intros t [= <-].
  - split; [done|]. split; [done|]. split; [done|]. split; [done|].
    split; [by intros np | by intros t].
Qed.

(** *** Failures *)

(** C4. An invocation that raises, whatever the cause, leaves the world as
    it found it; the files only ever change by the one rename of the target
    to the returned path, in an invocation that is not a dry run and that
    succeeds. *)
Theorem C4_failure_frame (fp : str) (md : option str) (whatif : bool)
    (w : World) :
  let file_path := PurePath.of_str fp in
  let r := run fp md whatif w in
  (forall e, r.1 = Raise e ->
     r.2 = w /\ forall q, path_exists r.2 q <-> path_exists w q)
  /\ (files r.2 <> files w ->
        whatif = false
        /\ exists np data,
             r.1 = Ok np
             /\ files w !! file_path = Some data
             /\ files r.2 = <[np := data]> (delete file_path (files w))).
Proof.
  cbv zeta. rewrite prepend_spec.
  destruct (date_of w (metadata_location fp md)) as [text|e0]; cbv zeta.
  - destruct whatif; simpl.
    + split; [by intros e | by intros H].
    + destruct (rename _ _ w) as [[[]|e1] w1] eqn:Hren; simpl.
      * split; [by intros e|]. intros _. split; [done|].
        apply rename_ok in Hren as (data & Hsrc & _ & _ & ->).
        by exists (new_file_path (PurePath.of_str fp) text), data.
      * apply rename_raise in Hren as [-> _].
        split; [by intros e | by intros H].
  - simpl. split; [by intros e | by intros H].
Qed.

(** C5. Whatever goes wrong, the caller sees one [RuntimeError] whose
    message is "Error processing file '<target>': <cause>", with the target
    path as [pathlib] prints it and the text of the underlying exception,
    which is kept as its context and is not itself a wrapped failure. A
    missing metadata file gives the cause "XMP metadata file not found:
    <location>". The path printed in the message reads back as the target
    path. *)
Theorem C5_wrapped_failure (fp : str) (md : option str) (whatif : bool)
    (w : World) :
  let file_path := PurePath.of_str fp in
  let xmp := metadata_location fp md in
  let r := run fp md whatif w in
  (forall e, r.1 = Raise e ->
     exists cause,
       e = Exn RuntimeError
             (u "Error processing file '" ++ PurePath.to_str file_path
              ++ u "': " ++ exn_msg cause)
             (Some cause)
       /\ exn_cls cause <> RuntimeError
       /\ exn_context cause = None)
  /\ (~ path_exists w xmp ->
      r.1 = Raise
              (Exn RuntimeError
                 (u "Error processing file '" ++ PurePath.to_str file_path
                  ++ u "': XMP metadata file not found: "
                  ++ PurePath.to_str xmp)
                 (Some (Exn FileNotFoundError
                          (u "XMP metadata file not found: "
                           ++ PurePath.to_str xmp) None))))
  /\ PurePath.of_str (PurePath.to_str file_path) = file_path.
Proof.
  cbv zeta.
  assert (forall cause,
             wrap (PurePath.of_str fp) cause
             = Exn RuntimeError
                 (u "Error processing file '"
                  ++ PurePath.to_str (PurePath.of_str fp)
                  ++ u "': " ++ exn_msg cause) (Some cause)) as Hwrap.
  { intros cause. unfold wrap, quote. f_equal.
    by rewrite <- !app_assoc. }
  rewrite prepend_spec. split; [|split; [|apply of_str_idempotent]].
  - intros e.
    destruct (date_of w (metadata_location fp md)) as [text|e0] eqn:Hd;
      cbv zeta.
    + destruct whatif; [done|].
      destruct (rename _ _ w) as [[[]|e1] w1] eqn:Hren; [done|].
      simpl. intros [= <-]. exists e1. split; [apply Hwrap|].
      apply rename_raise in Hren as (_ & [Hc|Hc] & Hctx); by rewrite Hc.
    + simpl. intros [= <-]. exists e0. split; [apply Hwrap|].
      by apply read_date_raise_cls in Hd.
  - intros Hmiss. unfold read_date.
    destruct (files w !! metadata_location fp md) as [data|] eqn:Hx.
    + exfalso. apply Hmiss. unfold path_exists. by rewrite Hx.
    + simpl. rewrite Hwrap. by unfold not_found_error.
Qed.

(** *** The DateCreated lookup *)

Lemma head_filter_None {A} (Q : A -> Prop) `{!forall x, Decision (Q x)}
    (l : list A) :
  head (filter Q l) = None <-> forall x, x ∈ l -> ~ Q x.
Proof.
  induction l as [|a l IH]; simpl.
  - split; [|done]. intros _ x Hx. by apply elem_of_nil in Hx.
  - rewrite filter_cons. destruct (decide (Q a)) as [Ha|Ha]; simpl.
    + split; [done|]. intros Hall. exfalso. apply (Hall a); [|done].
      apply elem_of_cons. by left.
    + rewrite IH. split.
      * intros Hall x [->|Hx]%elem_of_cons; [done | by apply Hall].
      * intros Hall x Hx. apply Hall, elem_of_cons. by right.
Qed.

Lemma head_filter_Some {A} (Q : A -> Prop) `{!forall x, Decision (Q x)}
    (l : list A) (x : A) :
  head (filter Q l) = Some x -> x ∈ l /\ Q x.
Proof.
  intros Hh. apply head_Some_elem_of in Hh.
  by apply list_elem_of_filter in Hh as [? ?].
Qed.

Lemma date_text_None (found : option Element) :
  date_text found = None <->
  found = None
  \/ exists el, found = Some el
                /\ (Element_text el = None \/ Element_text el = Some []).
Proof.
  unfold date_text. destruct found as [el|]; [|by split; [left|]].
  destruct (Element_text el) as [[|c t]|] eqn:Ht; simpl.
  - split; [|done]. intros _. right. exists el. tauto.
  - split; [done|]. intros [H|(el' & [= <-] & [H|H])]; [done| |];
      rewrite Ht in H; done.
  - split; [|done]. intros _. right. exists el. tauto.
Qed.

(** C6. The invocation fails with the wrapped "DateCreated attribute not
    found" failure exactly when the metadata file was read and parsed and
    the search for [{http://ns.adobe.com/photoshop/1.0/}DateCreated] among
    the descendants of the root finds no element, or finds one whose text is
    missing or empty; the world is then unchanged, so no rename took
    place. *)
Theorem C6_missing_field (fp : str) (md : option str) (whatif : bool)
    (w : World) :
  let file_path := PurePath.of_str fp in
  let xmp := metadata_location fp md in
  let r := run fp md whatif w in
  (r.1 = Raise (wrap file_path missing_field_error) <->
   exists data content rt,
     files w !! xmp = Some data
     /\ decode data = Value content
     /\ fromstring content = Value rt
     /\ (find_date_created rt = None
         \/ exists el, find_date_created rt = Some el
                       /\ (Element_text el = None
                           \/ Element_text el = Some [])))
  /\ (r.1 = Raise (wrap file_path missing_field_error) -> r.2 = w)
  /\ (forall rt,
        find_date_created rt = None <->
        forall el, el ∈ ET.descendants rt ->
                   Element_tag el
                   <> u "{http://ns.adobe.com/photoshop/1.0/}DateCreated")
  /\ (forall rt el,
        find_date_created rt = Some el ->
        el ∈ ET.descendants rt
        /\ Element_tag el = u "{http://ns.adobe.com/photoshop/1.0/}DateCreated")
  /\ exn_msg missing_field_error
     = u "DateCreated attribute not found in the XMP metadata.".
Proof.
  cbv zeta. rewrite prepend_spec.
  split; [|split; [|split; [|split; [|done]]]].
  - unfold read_date.
    destruct (files w !! metadata_location fp md) as [data|];
      [|split; [done | by intros (? & ? & ? & ? & _)]].
    destruct (decode data) as [content|msg] eqn:Hdec;
      [|split; [done | by intros (? & ? & ? & [= <-] & Hc & _); rewrite Hdec in Hc]].
    destruct (fromstring content) as [rt|msg] eqn:Hparse.
    2:{ split; [done|].
        intros (? & ? & ? & [= <-] & Hc & Hp & _).
        rewrite Hdec in Hc. injection Hc as <-. by rewrite Hparse in Hp. }
    destruct (date_text (find_date_created rt)) as [text|] eqn:Hdate.
    + split.
      * cbv zeta. destruct whatif; [done|].
        destruct (rename _ _ w) as [[[]|e1] w1] eqn:Hren; [done|].
        cbn [fst]. intros He%raise_wrap_inj. subst e1.
        by apply rename_raise in Hren as (_ & [Hc|Hc] & _).
      * intros (? & ? & ? & [= <-] & Hc & Hp & Hnone).
        rewrite Hdec in Hc. injection Hc as <-.
        rewrite Hparse in Hp. injection Hp as <-.
        apply date_text_None in Hnone. by rewrite Hdate in Hnone.
    + split; [|done]. intros _. exists data, content, rt.
      repeat split; try done. by apply date_text_None.
  - destruct (date_of w (metadata_location fp md)) as [text|e0]; [|done].
    cbv zeta. destruct whatif; [done|].
    destruct (rename _ _ w) as [[[]|e1] w1] eqn:Hren; [done|].
    by apply rename_raise in Hren as (-> & _).
  - intros rt. unfold find_date_created, ET.find_descendant.
    apply head_filter_None.
  - intros rt el. unfold find_date_created, ET.find_descendant.
    apply (head_filter_Some (fun x => Element_tag x = DATE_CREATED)).
Qed.

(** *** The metadata location *)

Lemma rfind_dot_no_dot (s : str) : DOT ∉ s -> PurePath.rfind_dot s = None.
Proof.
  induction s as [|c s IH]; [done|].
  intros [Hc Hs]%not_elem_of_cons. cbn [PurePath.rfind_dot].
  rewrite (IH Hs). by destruct (N.eqb_spec c DOT).
Qed.

Lemma rfind_dot_last (base ext : str) :
  DOT ∉ ext -> PurePath.rfind_dot (base ++ DOT :: ext) = Some (length base).
Proof.
  intros Hext. induction base as [|c base IH].
  - cbn [app PurePath.rfind_dot length].
    by rewrite (rfind_dot_no_dot _ Hext), N.eqb_refl.
  - cbn [app PurePath.rfind_dot length]. by rewrite IH.
Qed.

(** The stem is the name without its extension. *)
Lemma stem_drops_extension (base ext : str) :
  base <> [] -> ext <> [] -> DOT ∉ ext ->
  PurePath.stem_of_name (base ++ DOT :: ext) = base.
Proof.
  intros Hbase Hext Hdot. unfold PurePath.stem_of_name.
  rewrite (rfind_dot_last _ _ Hdot), length_app. cbn [length].
  assert (0 < length base)%nat by (destruct base; simpl; [done | lia]).
  assert (0 < length ext)%nat by (destruct ext; simpl; [done | lia]).
  replace (0 <? length base)%nat with true
    by (symmetry; apply Nat.ltb_lt; lia).
  replace (length base <? length base + S (length ext) - 1)%nat with true
    by (symmetry; apply Nat.ltb_lt; lia).
  cbn [andb]. by rewrite take_app_length.
Qed.

(** C7. The metadata location is [metadata_dir/<stem>.xmp] when a metadata
    directory is given (a non-empty string) and the target path itself
    otherwise, the stem being the target's name without its extension; the
    invocation raises when no file is there, and a dry run reads nothing of
    the world but the file at that location. *)
Theorem C7_metadata_location (fp : str) (md : option str) (whatif : bool)
    (w : World) :
  let file_path := PurePath.of_str fp in
  let xmp := metadata_location fp md in
  match md with
  | Some d =>
      if truthy d
      then xmp = PurePath.joinpath (PurePath.of_str d)
                   (PurePath.stem file_path ++ u ".xmp")
           /\ xmp = mkPath (root (PurePath.of_str d))
                      (tail (PurePath.of_str d)
                       ++ [PurePath.stem file_path ++ u ".xmp"])
      else xmp = file_path
  | None => xmp = file_path
  end
  /\ (forall base ext,
        base <> [] -> ext <> [] -> DOT ∉ ext ->
        PurePath.name file_path = base ++ DOT :: ext ->
        PurePath.stem file_path = base)
  /\ (~ path_exists w xmp ->
      run fp md whatif w = (Raise (wrap file_path (not_found_error xmp)), w))
  /\ (forall w2,
        files w2 !! xmp = files w !! xmp ->
        (run fp md true w2).1 = (run fp md true w).1).
Proof.
  cbv zeta. pose proof (of_str_wf fp) as Hwf.
  split; [|split; [|split]].
  - unfold metadata_location, metadata_dir_path.
    destruct md as [d|]; [|done]. destruct (truthy d); [|done].
    split; [done|]. by apply xmp_file_path_shape.
  - intros base ext Hb He Hd Hname. unfold PurePath.stem. rewrite Hname.
    by apply stem_drops_extension.
  - intros Hmiss. rewrite prepend_spec. unfold read_date.
    destruct (files w !! metadata_location fp md) as [data|] eqn:Hx; [|done].
    exfalso. apply Hmiss. unfold path_exists. by rewrite Hx.
  - intros w2 Hagree. rewrite !prepend_spec.
    rewrite (read_date_agree w2 w _ Hagree).
    by destruct (date_of w (metadata_location fp md)).
Qed.

(** *** Running twice *)

(** C8. After a successful invocation that is not a dry run the target path
    is gone and the new path exists; the same invocation repeated then
    raises, and the underlying cause is a [FileNotFoundError]. *)
Theorem C8_second_run (fp : str) (md : option str) (w w1 : World)
    (np : Path) :
  run fp md false w = (Ok np, w1) ->
  ~ path_exists w1 (PurePath.of_str fp)
  /\ path_exists w1 np
  /\ exists cause,
       exn_cls cause = FileNotFoundError
       /\ run fp md false w1 = (Raise (wrap (PurePath.of_str fp) cause), w1).
Proof.
  intros Hrun. pose proof (of_str_wf fp) as Hwf.
  rewrite prepend_spec in Hrun.
  destruct (date_of w (metadata_location fp md)) as [text|e] eqn:Hdate;
    [|done].
  cbv zeta in Hrun.
  destruct (rename _ _ w) as [[[]|e] w'] eqn:Hren; [|done].
  injection Hrun as <- <-.
  apply rename_ok in Hren as (data & Hsrc & _ & _ & ->).
  set (P0 := PurePath.of_str fp) in *.
  set (np := new_file_path P0 text) in *.
  assert (np <> P0) as Hne by (by apply new_file_path_ne).
  assert (files (set_files (<[np:=data]> (delete P0 (files w))) w) !! P0
          = None) as Hgone.
  { cbn [files set_files]. rewrite lookup_insert_ne by done.
    apply lookup_delete_eq. }
  split; [|split].
  - unfold path_exists. rewrite Hgone. apply is_Some_None.
  - unfold path_exists. cbn [files set_files]. rewrite lookup_insert_eq.
    by eexists.
  - rewrite prepend_spec. fold P0.
    destruct (decide (metadata_location fp md = P0)) as [Heq|Hxmp].
    + exists (not_found_error P0). split; [done|].
      rewrite Heq. unfold read_date. by rewrite Hgone.
    + assert (date_of (set_files (<[np:=data]> (delete P0 (files w))) w)
                (metadata_location fp md) = Ok text) as ->.
      { rewrite <- Hdate. apply read_date_agree. cbn [files set_files].
        rewrite lookup_insert_ne.
        - by apply lookup_delete_ne.
        - by apply new_file_path_ne_xmp. }
      cbv zeta. fold np.
      destruct (rename_missing P0 np _ Hgone) as (e & -> & Hcls).
      by exists e.
Qed.

(** *** Standard output *)

(** C9, as amended. A successful dry run prints exactly one line, the
    notice "[WHATIF] Would rename '<old>' to '<new>'". A successful
    invocation that is not a dry run prints nothing itself: the line "File
    renamed to: <path>" is printed by the statements run when the module is
    loaded, after their call (which is not a dry run) has returned. An
    invocation that raises prints nothing. *)
Theorem C9_output_lines :
  (forall fp md w np w',
      run fp md true w = (Ok np, w') ->
      stdout w' = stdout w ++ [whatif_notice (PurePath.of_str fp) np]
      /\ whatif_notice (PurePath.of_str fp) np
         = u "[WHATIF] Would rename '"
           ++ PurePath.to_str (PurePath.of_str fp)
           ++ u "' to '" ++ PurePath.to_str np ++ u "'")
  /\ (forall fp md w np w',
        run fp md false w = (Ok np, w') -> stdout w' = stdout w)
  /\ (forall w w',
        module_main decode fromstring w = (Ok (), w') ->
        exists np w1,
          run module_file_path (Some module_metadata_dir) false w
          = (Ok np, w1)
          /\ stdout w' = stdout w ++ [u "File renamed to: " ++ PurePath.to_str np])
  /\ (forall fp md whatif w e w',
        run fp md whatif w = (Raise e, w') -> stdout w' = stdout w).
Proof.
  split; [|split; [|split]].
  - intros fp md w np w' Hrun. rewrite prepend_spec in Hrun.
    destruct (date_of w (metadata_location fp md)) as [text|e]; [|done].
    cbv zeta in Hrun. injection Hrun as <- <-. split; [done|].
    unfold whatif_notice, quote. by rewrite <- !app_assoc.
  - intros fp md w np w' Hrun. rewrite prepend_spec in Hrun.
    destruct (date_of w (metadata_location fp md)) as [text|e]; [|done].
    cbv zeta in Hrun.
    destruct (rename _ _ w) as [[[]|e] w1] eqn:Hren; [|done].
    injection Hrun as <- <-.
    by apply rename_ok in Hren as (data & _ & _ & _ & ->).
  - intros w w' Hmain. unfold module_main, bind in Hmain.
    destruct (run module_file_path (Some module_metadata_dir) false w)
      as [[np|e] w1] eqn:Hrun; [|done].
    exists np, w1. split; [done|].
    unfold print in Hmain. injection Hmain as <-.
    rewrite prepend_spec in Hrun.
    destruct (date_of w _) as [text|e]; [|done].
    cbv zeta in Hrun.
    destruct (rename _ _ w) as [[[]|e] w2] eqn:Hren; [|done].
    injection Hrun as <- <-.
    by apply rename_ok in Hren as (data & _ & _ & _ & ->).
  - intros fp md whatif w e w' Hrun.
    by rewrite (run_raise_world _ _ _ _ _ _ Hrun).
Qed.

End Run.

(** * The program run on the sample worlds *)

(** A sidecar that does not parse: the syntax error is wrapped, and the
    world is handed back as it was. *)
Example bad_xml_run :
  run_sample "/photos/IMG_1.png" (Some "/meta"%string) false world_bad_xml
  = (Raise (wrap (P "/photos/IMG_1.png")
              (Exn ParseError (u "syntax error: line 1, column 0") None)),
     world_bad_xml).
Proof. vm_compute. reflexivity. Qed.

(** A target that is its own metadata file, with no directory given. *)
Example self_metadata_run :
  (prepend_date_to_filename ascii_decode sample_fromstring
     (u "/meta/IMG_1.xmp") None true (sample_world "2024-01-05")).1
  = Ok (P "/meta/2024-01-05_IMG_1.xmp").
Proof. vm_compute. reflexivity. Qed.

(** The picture /photos/IMG_1.png stamped "2024-01-05" is returned as
    /photos/2024-01-05_IMG_1.png. *)
Lemma C2_new_path_witness :
  (run_sample "/photos/IMG_1.png" (Some "/meta"%string) false
     (sample_world "2024-01-05")).1
  = Ok (P "/photos/2024-01-05_IMG_1.png")
  /\ exists text,
       read_date ascii_decode sample_fromstring (sample_world "2024-01-05")
         (metadata_location (u "/photos/IMG_1.png") (Some (u "/meta")))
       = Ok text
       /\ P "/photos/2024-01-05_IMG_1.png"
          = PurePath.joinpath (PurePath.parent (P "/photos/IMG_1.png"))
              (sanitize text ++ u "_" ++ PurePath.name (P "/photos/IMG_1.png"))
       /\ PurePath.parent (P "/photos/2024-01-05_IMG_1.png")
          = PurePath.parent (P "/photos/IMG_1.png")
       /\ PurePath.name (P "/photos/2024-01-05_IMG_1.png")
          = sanitize text ++ u "_" ++ PurePath.name (P "/photos/IMG_1.png").
Proof.
  split; [vm_compute; reflexivity|].
  apply (C2_new_path ascii_decode sample_fromstring
           (u "/photos/IMG_1.png") (Some (u "/meta")) false
           (sample_world "2024-01-05")
           (run_sample "/photos/IMG_1.png" (Some "/meta"%string) false
              (sample_world "2024-01-05")).2).
  vm_compute. reflexivity.
Defined.

(** A dry run on the same world: nothing moves, the new path stays free and
    is returned. *)
Lemma C3_dry_run_frame_witness :
  let w := sample_world "2024:01:05 10:30" in
  let r := run_sample "/photos/IMG_1.png" (Some "/meta"%string) true w in
  r.1 = Ok (P "/photos/2024_01_05_10_30_IMG_1.png")
  /\ files r.2 = files w
  /\ path_exists r.2 (P "/photos/IMG_1.png")
  /\ ~ path_exists r.2 (P "/photos/2024_01_05_10_30_IMG_1.png").
Proof.
  cbv zeta.
  pose proof (C3_dry_run_frame ascii_decode sample_fromstring
                (u "/photos/IMG_1.png") (Some (u "/meta"))
                (sample_world "2024:01:05 10:30"))
    as (Hfiles & _ & _ & Hstill & Hnew & _).
  assert ((run_sample "/photos/IMG_1.png" (Some "/meta"%string) true
             (sample_world "2024:01:05 10:30")).1
          = Ok (P "/photos/2024_01_05_10_30_IMG_1.png")) as Hrun
    by (vm_compute; reflexivity).
  split; [exact Hrun|]. split; [exact Hfiles|]. split.
  - apply Hstill. vm_compute. eauto.
  - apply (Hnew _ Hrun). vm_compute. intros [x Hx]. discriminate Hx.
Defined.

(** A rename that is refused leaves the world alone. *)
Lemma C4_failure_frame_witness :
  let r := run_sample "/photos/IMG_1.png" (Some "/meta"%string) false world_readonly in
  exn_cls <$> (match r.1 with Raise e => exn_context e | Ok _ => None end)
  = Some PermissionError
  /\ r.2 = world_readonly.
Proof.
  cbv zeta. split; [vm_compute; reflexivity|].
  destruct (run_sample "/photos/IMG_1.png" (Some "/meta"%string) false world_readonly).1
    as [np|e] eqn:Hr; [vm_compute in Hr; discriminate Hr|].
  exact (proj1 (proj1 (C4_failure_frame ascii_decode sample_fromstring
                         (u "/photos/IMG_1.png") (Some (u "/meta")) false
                         world_readonly) e Hr)).
Defined.

(** The message of the failure when the sidecar is missing. *)
Lemma C5_wrapped_failure_witness :
  (run_sample "/photos/IMG_1.png" (Some "/meta"%string) false world_without_sidecar).1
  = Raise
      (Exn RuntimeError
         (u "Error processing file '/photos/IMG_1.png': XMP metadata file not found: /meta/IMG_1.xmp")
         (Some (Exn FileNotFoundError
                  (u "XMP metadata file not found: /meta/IMG_1.xmp") None))).
Proof.
  refine (eq_trans
            (proj1 (proj2 (C5_wrapped_failure ascii_decode sample_fromstring
                             (u "/photos/IMG_1.png") (Some (u "/meta")) false
                             world_without_sidecar)) _) _).
  - vm_compute. intros [x Hx]. discriminate Hx.
  - vm_compute. reflexivity.
Defined.

(** A sidecar without the element, and one where it is empty. *)
Lemma C6_missing_field_witness :
  (run_sample "/photos/IMG_1.png" (Some "/meta"%string) false world_no_date).1
  = Raise (wrap (P "/photos/IMG_1.png") missing_field_error)
  /\ (run_sample "/photos/IMG_1.png" (Some "/meta"%string) false
        (sample_world EmptyString)).1
     = Raise (wrap (P "/photos/IMG_1.png") missing_field_error).
Proof.
  split.
  - apply (proj1 (C6_missing_field ascii_decode sample_fromstring
                    (u "/photos/IMG_1.png") (Some (u "/meta")) false
                    world_no_date)).
    exists (file_of xmp_source_no_date), (u xmp_source_no_date), (xmp_tree []).
    repeat split; try (vm_compute; reflexivity). left. reflexivity.
  - apply (proj1 (C6_missing_field ascii_decode sample_fromstring
                    (u "/photos/IMG_1.png") (Some (u "/meta")) false
                    (sample_world EmptyString))).
    exists (file_of (xmp_source EmptyString)), (u (xmp_source EmptyString)),
      (xmp_tree [date_field None]).
    repeat split; try (vm_compute; reflexivity).
    right. exists (date_field None). split; [reflexivity | by left].
Defined.

(** The sidecar of /photos/IMG_1.png in /meta is /meta/IMG_1.xmp. *)
Lemma C7_metadata_location_witness :
  metadata_location (u "/photos/IMG_1.png") (Some (u "/meta"))
  = P "/meta/IMG_1.xmp"
  /\ metadata_location (u "/photos/IMG_1.png") None = P "/photos/IMG_1.png"
  /\ run_sample "/photos/IMG_1.png" (Some "/meta"%string) true world_without_sidecar
     = (Raise (wrap (P "/photos/IMG_1.png")
                 (not_found_error (P "/meta/IMG_1.xmp"))),
        world_without_sidecar).
Proof.
  pose proof (C7_metadata_location ascii_decode sample_fromstring
                (u "/photos/IMG_1.png") (Some (u "/meta")) true
                world_without_sidecar) as (_ & _ & Hmiss & _).
  split; [vm_compute; reflexivity|]. split; [vm_compute; reflexivity|].
  apply Hmiss. vm_compute. intros [x Hx]. discriminate Hx.
Defined.

(** Renaming for real, then trying again. *)
Lemma C8_second_run_witness :
  let w1 := (run_sample "/photos/IMG_1.png" (Some "/meta"%string) false
               (sample_world "2024-01-05")).2 in
  ~ path_exists w1 (P "/photos/IMG_1.png")
  /\ path_exists w1 (P "/photos/2024-01-05_IMG_1.png")
  /\ exists cause,
       exn_cls cause = FileNotFoundError
       /\ run_sample "/photos/IMG_1.png" (Some "/meta"%string) false w1
          = (Raise (wrap (P "/photos/IMG_1.png") cause), w1).
Proof.
  cbv zeta.
  apply (C8_second_run ascii_decode sample_fromstring
           (u "/photos/IMG_1.png") (Some (u "/meta"))
           (sample_world "2024-01-05")).
  vm_compute. reflexivity.
Defined.

(** The notice a dry run prints. *)
Lemma C9_output_lines_witness :
  stdout (run_sample "/photos/IMG_1.png" (Some "/meta"%string) true
            (sample_world "2024-01-05")).2
  = [u "[WHATIF] Would rename '/photos/IMG_1.png' to '/photos/2024-01-05_IMG_1.png'"].
Proof.
  pose proof (proj1 (C9_output_lines ascii_decode sample_fromstring)
                (u "/photos/IMG_1.png") (Some (u "/meta"))
                (sample_world "2024-01-05")
                (P "/photos/2024-01-05_IMG_1.png")
                (run_sample "/photos/IMG_1.png" (Some "/meta"%string) true
                   (sample_world "2024-01-05")).2) as Hout.
  destruct Hout as [Hout _]; [vm_compute; reflexivity|].
  rewrite Hout. vm_compute. reflexivity.
Defined.

(** C9 as the specification words it fails: the invocation below succeeds,
    is not a dry run, and prints no line at all. *)
Lemma C9_counterexample :
  let r := run_sample "/photos/IMG_1.png" (Some "/meta"%string) false
             (sample_world "2024-01-05") in
  (r.1 = Ok (P "/photos/2024-01-05_IMG_1.png")
   /\ stdout (sample_world "2024-01-05") = []
   /\ stdout r.2 = [])
  /\ ~ one_line_per_success ascii_decode sample_fromstring.
Proof.
  cbv zeta. split; [repeat split; vm_compute; reflexivity|].
  intros Hclaim.
  assert (prepend_date_to_filename ascii_decode sample_fromstring
            (u "/photos/IMG_1.png") (Some (u "/meta")) false
            (sample_world "2024-01-05")
          = (Ok (P "/photos/2024-01-05_IMG_1.png"),
             (run_sample "/photos/IMG_1.png" (Some "/meta"%string) false
                (sample_world "2024-01-05")).2)) as Hrun
    by (vm_compute; reflexivity).
  apply Hclaim in Hrun. vm_compute in Hrun. discriminate Hrun.
Qed.

(** * Further properties of the program *)

Section Further.

Context (decode : list Byte.byte -> outcome str).
Context (fromstring : str -> outcome Element).

Abbreviation run' := (prepend_date_to_filename decode fromstring).
Abbreviation date_of' := (read_date decode fromstring).

(** The date text that passes line 42 is not empty. *)
Lemma read_date_nonempty (w : World) (xmp : Path) (text : str) :
  date_of' w xmp = Ok text -> text <> [].
Proof.
  unfold read_date.
  destruct (files w !! xmp) as [data|]; [|done].
  destruct (decode data) as [content|]; [|done].
  destruct (fromstring content) as [rt|]; [|done].
  unfold date_text. destruct (find_date_created rt) as [el|]; [|done].
  destruct (Element_text el) as [[|c t]|]; try done.
  by intros [= <-].
Qed.

(** What a successful invocation went through. *)
Lemma run_ok_inv (fp : str) (md : option str) (whatif : bool)
    (w w' : World) (np : Path) :
  run' fp md whatif w = (Ok np, w') ->
  exists text,
    date_of' w (metadata_location fp md) = Ok text
    /\ text <> []
    /\ np = new_file_path (PurePath.of_str fp) text
    /\ if whatif
       then w' = add_line (whatif_notice (PurePath.of_str fp) np) w
       else exists data,
           files w !! PurePath.of_str fp = Some data
           /\ (PurePath.parent (PurePath.of_str fp) ∉ readonly w)
           /\ (PurePath.parent np ∉ readonly w)
           /\ w' = set_files
                     (<[np := data]> (delete (PurePath.of_str fp) (files w)))
                     w.
Proof.
  intros Hrun. rewrite prepend_spec in Hrun.
  destruct (date_of' w (metadata_location fp md)) as [text|e] eqn:Hd; [|done].
  exists text. split; [done|].
  split; [exact (read_date_nonempty _ _ _ Hd)|].
  cbv zeta in Hrun. destruct whatif.
  - injection Hrun as <- <-. by split.
  - destruct (rename _ _ w) as [[[]|e] w1] eqn:Hren; [|done].
    injection Hrun as <- <-. split; [done|].
    apply (rename_ok decode) in Hren as (data & ? & ? & ? & ->). by exists data.
Qed.

(** X1. A successful invocation that is not a dry run moves the bytes of the
    target, unchanged, to the returned path (replacing whatever was there),
    removes the old entry, and touches no other path, nor the standard
    output. *)
Theorem real_run_moves_content (fp : str) (md : option str) (w w1 : World)
    (np : Path) :
  run' fp md false w = (Ok np, w1) ->
  is_Some (files w !! PurePath.of_str fp)
  /\ files w1 !! np = files w !! PurePath.of_str fp
  /\ files w1 !! PurePath.of_str fp = None
  /\ (forall q, q <> PurePath.of_str fp -> q <> np ->
        files w1 !! q = files w !! q)
  /\ readonly w1 = readonly w
  /\ stdout w1 = stdout w.
Proof.
  intros Hrun. pose proof (of_str_wf fp) as Hwf.
  apply run_ok_inv in Hrun as (text & _ & _ & -> & data & Hsrc & _ & _ & ->).
  cbn [files readonly stdout set_files]. rewrite Hsrc.
  split; [by eexists|]. split; [apply lookup_insert_eq|]. split.
  - rewrite lookup_insert_ne by (by apply new_file_path_ne).
    apply lookup_delete_eq.
  - split; [|done]. intros q Hq1 Hq2.
    rewrite lookup_insert_ne by done. by apply lookup_delete_ne.
Qed.

(** X2. The rename never lands on the metadata file: the returned path
    differs from the metadata location, and unless the target is its own
    metadata file the sidecar is still there afterwards, byte for byte, and
    yields the same date. *)
Theorem real_run_keeps_sidecar (fp : str) (md : option str) (w w1 : World)
    (np : Path) :
  run' fp md false w = (Ok np, w1) ->
  np <> metadata_location fp md
  /\ (metadata_location fp md <> PurePath.of_str fp ->
      is_Some (files w1 !! metadata_location fp md)
      /\ files w1 !! metadata_location fp md
         = files w !! metadata_location fp md
      /\ date_of' w1 (metadata_location fp md)
         = date_of' w (metadata_location fp md)).
Proof.
  intros Hrun. pose proof (of_str_wf fp) as Hwf.
  apply run_ok_inv in Hrun as (text & Hd & _ & -> & data & Hsrc & _ & _ & ->).
  assert (new_file_path (PurePath.of_str fp) text <> metadata_location fp md)
    as Hne by (by apply new_file_path_ne_xmp).
  split; [done|]. intros Hxmp.
  assert (files (set_files
                   (<[new_file_path (PurePath.of_str fp) text := data]>
                      (delete (PurePath.of_str fp) (files w))) w)
            !! metadata_location fp md
          = files w !! metadata_location fp md) as Hsame.
  { cbn [files set_files]. rewrite lookup_insert_ne by done.
    by apply lookup_delete_ne. }
  split; [|split; [done | by apply read_date_agree]].
  rewrite Hsame. unfold read_date in Hd.
  by destruct (files w !! metadata_location fp md).
Qed.


(** X4. A dry run can be repeated: the second one gives the same result on
    the same files and prints the same notice again. *)
Theorem dry_run_repeatable (fp : str) (md : option str) (w : World) :
  let r1 := run' fp md true w in
  let r2 := run' fp md true r1.2 in
  r2.1 = r1.1
  /\ files r2.2 = files w
  /\ forall np, r1.1 = Ok np ->
       stdout r2.2
       = stdout w ++ [whatif_notice (PurePath.of_str fp) np;
                      whatif_notice (PurePath.of_str fp) np].
Proof.
  cbv zeta. rewrite (prepend_spec _ _ fp md true w).
  destruct (date_of' w (metadata_location fp md)) as [text|e] eqn:Hd;
    cbv zeta; cbn [fst snd].
  - rewrite prepend_spec.
    rewrite (read_date_agree _ _ _ w) by done. rewrite Hd.
    cbv zeta. cbn [fst snd files stdout add_line].
    split; [done|]. split; [done|]. intros np [= <-].
    by rewrite <- app_assoc.
  - rewrite prepend_spec, Hd. cbn [fst snd]. done.
Qed.

(** *** Sanitizing, further *)

(** X5. Sanitizing works piece by piece, leaves a text as it is exactly when
    every character of it is allowed, and only the empty text sanitizes to
    the empty text. *)
Theorem sanitize_pieces_and_fixpoints :
  (forall a b : str, sanitize (a ++ b) = sanitize a ++ sanitize b)
  /\ (forall s : str,
        sanitize s = s <-> Forall (fun c => Re.allowed c = true) s)
  /\ (forall s : str, sanitize s = [] <-> s = []).
Proof.
  split; [|split].
  - intros a b. rewrite !sanitize_map. apply map_app.
  - intros s. split.
    + intros <-. apply sanitize_all_allowed.
    + rewrite sanitize_map. induction 1 as [|c s Hc _ IH]; [done|].
      cbn [map]. by rewrite IH, sanitize_char_fixed.
  - intros s. split; [|by intros ->].
    intros Hs. apply (f_equal length) in Hs.
    rewrite sanitize_length in Hs. by destruct s.
Qed.

(** X6. On success the returned name is the old name behind a prefix of at
    least two characters, all of them allowed, the last one the
    underscore; the name holds no separator and is never the old name. *)
Theorem new_name_safe_prefix (fp : str) (md : option str) (whatif : bool)
    (w w' : World) (np : Path) :
  run' fp md whatif w = (Ok np, w') ->
  exists pre,
    PurePath.name np = pre ++ PurePath.name (PurePath.of_str fp)
    /\ (2 <= length pre)%nat
    /\ Forall (fun c => Re.allowed c = true) pre
    /\ last pre = Some (ord "_")
    /\ (SEP ∉ PurePath.name np)
    /\ PurePath.name np <> PurePath.name (PurePath.of_str fp).
Proof.
  intros Hrun. pose proof (of_str_wf fp) as Hwf.
  apply run_ok_inv in Hrun as (text & _ & Hne & -> & _).
  rewrite new_file_path_name by done.
  exists (sanitize text ++ u "_"). unfold new_filename.
  split; [by rewrite <- app_assoc|]. split.
  { rewrite length_app, sanitize_length. destruct text; [done|].
    change (length (u "_")) with 1%nat. cbn [length]. lia. }
  split.
  { apply Forall_app. split; [apply sanitize_all_allowed|].
    by apply Forall_singleton. }
  split; [apply last_snoc|]. split.
  - apply (new_filename_component _ text Hwf).
  - apply new_name_ne_name.
Qed.

(** *** The element search, further *)




(** *** The statements run when the module is loaded *)

(** X8. Loading the module looks for IMG_2293.xmp in the metadata directory
    and renames for real. When the call fails its exception escapes with
    the world untouched and nothing printed; when it succeeds the picture is
    gone from its path, it is at the returned path, whose name ends in
    "_IMG_2293.png", and the one line printed is the confirmation. *)
Theorem module_main_outcome (w : World) :
  let target := PurePath.of_str module_file_path in
  let f := run' module_file_path (Some module_metadata_dir) false w in
  metadata_location module_file_path (Some module_metadata_dir)
  = PurePath.joinpath (PurePath.of_str module_metadata_dir) (u "IMG_2293.xmp")
  /\ match f.1 with
     | Ok np =>
         module_main decode fromstring w
         = (Ok (), add_line (confirmation np) f.2)
         /\ (exists text,
               np = PurePath.joinpath (PurePath.parent target)
                      (sanitize text ++ u "_IMG_2293.png"))
         /\ files f.2 !! target = None
         /\ is_Some (files f.2 !! np)
         /\ stdout f.2 = stdout w
     | Raise e => module_main decode fromstring w = (Raise e, w)
     end.
Proof.
  cbv zeta. split; [vm_compute; reflexivity|].
  pose proof (of_str_wf module_file_path) as Hwf.
  unfold module_main, bind.
  destruct (run' module_file_path (Some module_metadata_dir) false w)
    as [[np|e] w1] eqn:Hrun; cbn [fst snd].
  - split; [done|].
    apply run_ok_inv in Hrun as (text & _ & _ & -> & data & Hsrc & _ & _ & ->).
    split; [by exists text|]. cbn [files stdout set_files].
    split; [|split; [|done]].
    + rewrite lookup_insert_ne by (by apply new_file_path_ne).
      apply lookup_delete_eq.
    + rewrite lookup_insert_eq. by eexists.
  - by rewrite (run_raise_world decode fromstring _ _ _ _ _ _ Hrun).
Qed.

(** *** The returned path as a string *)

Lemma removelast_Forall {A} (Q : A -> Prop) (l : list A) :
  Forall Q l -> Forall Q (removelast l).
Proof.
  induction 1 as [|x l Hx Hl IH]; [done|].
  destruct l as [|y l]; [done|].
  change (removelast (x :: y :: l)) with (x :: removelast (y :: l)).
  by apply Forall_cons.
Qed.

(** X9. The path a successful invocation returns has the root of the target
    and well-formed components, and the string it prints as (in the notice
    and in the confirmation) reads back, through [Path], as that path. *)
Theorem returned_path_reads_back (fp : str) (md : option str) (whatif : bool)
    (w w' : World) (np : Path) :
  run' fp md whatif w = (Ok np, w') ->
  wf_path np
  /\ root np = root (PurePath.of_str fp)
  /\ length (tail np)
     = Nat.max 1 (length (tail (PurePath.of_str fp)))
  /\ PurePath.of_str (PurePath.to_str np) = np.
Proof.
  intros Hrun. pose proof (of_str_wf fp) as Hwf.
  apply run_ok_inv in Hrun as (text & _ & _ & -> & _).
  rewrite new_file_path_shape by done.
  assert (wf_path (mkPath (root (PurePath.of_str fp))
                     (removelast (tail (PurePath.of_str fp))
                      ++ [new_filename (PurePath.of_str fp) text])))
    as Hwf'.
  { unfold wf_path. cbn [tail]. apply Forall_app. split.
    - by apply removelast_Forall.
    - apply Forall_singleton. by apply new_filename_component. }
  split; [done|]. split; [done|]. split.
  - cbn [tail]. rewrite length_app. cbn [length].
    destruct (name_cases (PurePath.of_str fp)) as [[-> _]|Ht]; [done|].
    rewrite Ht at 2. rewrite length_app. cbn [length]. lia.
  - apply of_str_to_str; [done|]. cbn [root]. apply of_str_root.
Qed.

(** *** The stem of a name *)

Lemma rfind_dot_None_inv (s : str) : PurePath.rfind_dot s = None -> DOT ∉ s.
Proof.
  induction s as [|c s IH]; [intros _; apply not_elem_of_nil|].
  cbn [PurePath.rfind_dot].
  destruct (PurePath.rfind_dot s) as [i|]; [done|].
  destruct (N.eqb_spec c DOT) as [|Hc]; [done|]. intros _.
  apply not_elem_of_cons. split; [done | by apply IH].
Qed.

Lemma rfind_dot_Some (s : str) (i : nat) :
  PurePath.rfind_dot s = Some i ->
  exists ext, s = take i s ++ DOT :: ext
              /\ (DOT ∉ ext) /\ length (take i s) = i.
Proof.
  revert i. induction s as [|c s IH]; intros i; [done|].
  cbn [PurePath.rfind_dot].
  destruct (PurePath.rfind_dot s) as [j|] eqn:Hj.
  - intros [= <-]. destruct (IH j eq_refl) as (ext & Hs & Hext & Hlen).
    exists ext. cbn [take]. split; [|split; [done|]].
    + cbn [app]. by rewrite <- Hs.
    + cbn [length]. by rewrite Hlen.
  - destruct (N.eqb_spec c DOT) as [->|_]; [|done]. intros [= <-].
    exists s. split; [done|]. split; [by apply rfind_dot_None_inv | done].
Qed.

(** X10. The stem that names the sidecar is either the whole name or, when
    the name is [base.ext] with both parts non-empty and no dot in [ext],
    its [base]; it is empty only for the empty name; a name without a dot,
    a name whose only dot comes first (a hidden file) and a name that ends
    in a dot are their own stem. *)
Theorem stem_of_name_spec :
  (forall nm,
      PurePath.stem_of_name nm = nm
      \/ exists base ext,
           base <> [] /\ ext <> [] /\ (DOT ∉ ext)
           /\ nm = base ++ DOT :: ext
           /\ PurePath.stem_of_name nm = base)
  /\ (forall nm, PurePath.stem_of_name nm = [] <-> nm = [])
  /\ (forall nm, DOT ∉ nm -> PurePath.stem_of_name nm = nm)
  /\ (forall s, DOT ∉ s -> PurePath.stem_of_name (DOT :: s) = DOT :: s)
  /\ (forall s, PurePath.stem_of_name (s ++ [DOT]) = s ++ [DOT]).
Proof.
  assert (forall nm,
             PurePath.stem_of_name nm = nm
             \/ exists base ext,
                  base <> [] /\ ext <> [] /\ (DOT ∉ ext)
                  /\ nm = base ++ DOT :: ext
                  /\ PurePath.stem_of_name nm = base) as Hcases.
  { intros nm. unfold PurePath.stem_of_name.
    destruct (PurePath.rfind_dot nm) as [i|] eqn:Hi; [|by left].
    destruct ((0 <? i)%nat && (i <? length nm - 1)%nat) eqn:Hc; [|by left].
    right. apply andb_true_iff in Hc as [H0 H1].
    apply Nat.ltb_lt in H0, H1.
    destruct (rfind_dot_Some _ _ Hi) as (ext & Hnm & Hext & Hlen).
    exists (take i nm), ext.
    assert (length nm = (i + S (length ext))%nat) as Hl.
    { rewrite Hnm at 1. rewrite length_app, Hlen. done. }
    split; [intros Hb; rewrite Hb in Hlen; cbn in Hlen; lia|].
    split; [intros ->; cbn in Hl; lia|]. done. }
  split; [exact Hcases|]. split; [|split; [|split]].
  - intros nm. split; [|by intros ->].
    destruct (Hcases nm) as [->|(base & ext & Hb & _ & _ & _ & ->)]; done.
  - intros nm Hdot. unfold PurePath.stem_of_name.
    by rewrite rfind_dot_no_dot.
  - intros s Hs. unfold PurePath.stem_of_name. cbn [PurePath.rfind_dot].
    by rewrite (rfind_dot_no_dot _ Hs), N.eqb_refl.
  - intros s. unfold PurePath.stem_of_name.
    rewrite (rfind_dot_last s []) by apply not_elem_of_nil.
    rewrite length_app. cbn [length].
    replace (length s <? length s + 1 - 1)%nat with false
      by (symmetry; apply Nat.ltb_ge; lia).
    by rewrite andb_false_r.
Qed.

End Further.

Section Stages.

Context (decode : list Byte.byte -> outcome str).
Context (fromstring : str -> outcome Element).


End Stages.

(** X12. Two targets that carry the same sanitized date are never sent to
    the same new path: if the new paths of two named targets coincide, the
    targets are the same path. *)
Theorem new_file_path_injective (fp1 fp2 : str) (t1 t2 : str) :
  sanitize t1 = sanitize t2 ->
  PurePath.name (PurePath.of_str fp1) <> [] ->
  PurePath.name (PurePath.of_str fp2) <> [] ->
  new_file_path (PurePath.of_str fp1) t1
  = new_file_path (PurePath.of_str fp2) t2 ->
  PurePath.of_str fp1 = PurePath.of_str fp2.
Proof.
  intros Hsan Hn1 Hn2 Heq.
  rewrite !new_file_path_shape in Heq by apply of_str_wf.
  injection Heq as Hroot Htail.
  apply app_inj_tail in Htail as [Hinit Hname].
  unfold new_filename in Hname. rewrite Hsan in Hname.
  apply app_inv_head in Hname. apply app_inv_head in Hname.
  destruct (name_cases (PurePath.of_str fp1)) as [[_ H1]|H1]; [done|].
  destruct (name_cases (PurePath.of_str fp2)) as [[_ H2]|H2]; [done|].
  destruct (PurePath.of_str fp1) as [r1 tl1], (PurePath.of_str fp2) as [r2 tl2].
  cbn [root tail] in *. unfold PurePath.name in *. cbn [tail] in *.
  rewrite H1, H2, Hinit, Hname, Hroot. done.
Qed.

(** * The further properties on the sample worlds *)

(** The picture's bytes arrive under the new name. *)
Lemma real_run_moves_content_witness :
  let w := sample_world "2024-01-05" in
  let w1 := (run_sample "/photos/IMG_1.png" (Some "/meta"%string) false w).2 in
  files w1 !! P "/photos/2024-01-05_IMG_1.png" = Some (file_of "PNG")
  /\ files w1 !! P "/photos/IMG_1.png" = None
  /\ stdout w1 = [].
Proof.
  cbv zeta.
  assert (prepend_date_to_filename ascii_decode sample_fromstring
            (u "/photos/IMG_1.png") (Some (u "/meta")) false
            (sample_world "2024-01-05")
          = (Ok (P "/photos/2024-01-05_IMG_1.png"),
             (run_sample "/photos/IMG_1.png" (Some "/meta"%string) false
                (sample_world "2024-01-05")).2)) as Hrun
    by (vm_compute; reflexivity).
  destruct (real_run_moves_content ascii_decode sample_fromstring
              _ _ _ _ _ Hrun) as (_ & Hnew & Hold & _ & _ & Hout).
  split; [|split; [exact Hold|]].
  - rewrite Hnew. vm_compute. reflexivity.
  - rewrite Hout. reflexivity.
Defined.

(** The sidecar in /meta is still there after the rename. *)
Lemma real_run_keeps_sidecar_witness :
  let w := sample_world "2024-01-05" in
  let w1 := (run_sample "/photos/IMG_1.png" (Some "/meta"%string) false w).2 in
  P "/photos/2024-01-05_IMG_1.png" <> P "/meta/IMG_1.xmp"
  /\ is_Some (files w1 !! P "/meta/IMG_1.xmp").
Proof.
  cbv zeta.
  assert (prepend_date_to_filename ascii_decode sample_fromstring
            (u "/photos/IMG_1.png") (Some (u "/meta")) false
            (sample_world "2024-01-05")
          = (Ok (P "/photos/2024-01-05_IMG_1.png"),
             (run_sample "/photos/IMG_1.png" (Some "/meta"%string) false
                (sample_world "2024-01-05")).2)) as Hrun
    by (vm_compute; reflexivity).
  destruct (real_run_keeps_sidecar ascii_decode sample_fromstring
              _ _ _ _ _ Hrun) as (Hne & Hkeep).
  split; [exact Hne|].
  apply Hkeep. vm_compute. discriminate.
Defined.

(** The prefix put before IMG_1.png. *)
Lemma new_name_safe_prefix_witness :
  exists pre,
    PurePath.name (P "/photos/2024_01_05_10_30_IMG_1.png")
    = pre ++ PurePath.name (PurePath.of_str (u "/photos/IMG_1.png"))
    /\ (2 <= length pre)%nat
    /\ Forall (fun c => Re.allowed c = true) pre
    /\ last pre = Some (ord "_")
    /\ (SEP ∉ PurePath.name (P "/photos/2024_01_05_10_30_IMG_1.png"))
    /\ PurePath.name (P "/photos/2024_01_05_10_30_IMG_1.png")
       <> PurePath.name (PurePath.of_str (u "/photos/IMG_1.png")).
Proof.
  apply (new_name_safe_prefix ascii_decode sample_fromstring
           (u "/photos/IMG_1.png") (Some (u "/meta")) true
           (sample_world "2024:01:05 10:30")
           (run_sample "/photos/IMG_1.png" (Some "/meta"%string) true
              (sample_world "2024:01:05 10:30")).2).
  vm_compute. reflexivity.
Defined.

(** The returned path printed and read back. *)
Lemma returned_path_reads_back_witness :
  PurePath.to_str (P "/photos/2024-01-05_IMG_1.png")
  = u "/photos/2024-01-05_IMG_1.png"
  /\ PurePath.of_str (PurePath.to_str (P "/photos/2024-01-05_IMG_1.png"))
     = P "/photos/2024-01-05_IMG_1.png".
Proof.
  split; [vm_compute; reflexivity|].
  apply (returned_path_reads_back ascii_decode sample_fromstring
           (u "/photos/IMG_1.png") (Some (u "/meta")) true
           (sample_world "2024-01-05")
           (run_sample "/photos/IMG_1.png" (Some "/meta"%string) true
              (sample_world "2024-01-05")).2).
  vm_compute. reflexivity.
Defined.

(** Two spellings of one target, two dates with one sanitized form. *)
Lemma new_file_path_injective_witness :
  PurePath.of_str (u "/photos//IMG_1.png")
  = PurePath.of_str (u "/photos/./IMG_1.png").
Proof.
  apply (new_file_path_injective (u "/photos//IMG_1.png")
           (u "/photos/./IMG_1.png") (u "2024:01") (u "2024 01")).
  - vm_compute. reflexivity.
  - vm_compute. discriminate.
  - vm_compute. discriminate.
  - vm_compute. reflexivity.
Defined.


